(** * Punishment escalation and connection monitoring: a shallow embedding

    The development follows the Python sources:
    - [db/crud/violations.py] (class [ViolationHistoryCRUD]) becomes module
      [ViolationStore]: the table is a list of rows, every query is a pure
      function of the clock reading and the table;
    - the handlers [punishment_set_window] and [punishment_set_steps] of
      [telegram_bot/main.py] become module [PunishmentConfig]: JSON values
      are an inductive type, Python exceptions an error monad, and the
      configuration file is the dictionary the handlers read and write back;
    - [utils/punishment_system] and [utils/warning_system] are imported by
      the handlers but are not part of the sources at hand; modules
      [PunishmentPolicy] and [Monitoring] model them from the specification.

    Clock readings ([time.time()]) are exact rationals: rounding of binary
    floating point is not modelled. *)

From stdpp Require Import gmap strings list.
From Stdlib Require Import ZArith QArith Qminmax Qround Lqa Lia Permutation Sorted.
From Stdlib Require Import Strings.String Strings.Ascii Lists.List.
Import ListNotations.

Set Warnings "-register-all".

Local Open Scope string_scope.
Local Open Scope Z_scope.

(** ** The violation history table *)

Module ViolationStore.

(** One row of the [ViolationHistory] table.  [id] is the primary key the
    database assigns when the row is flushed; [ip_count] and [ips] are the
    optional columns. *)
Record ViolationHistory : Type := mkViolation {
  id : Z;
  username : string;
  timestamp : Q;
  step_applied : Z;
  disable_duration : Z;
  ip_count : option Z;
  ips : option (list string)
}.

(** The session is used as the table contents, oldest insertion first. *)
Definition table := list ViolationHistory.

(** Primary keys grow: the next key is one more than the largest in use. *)
Definition next_id (db : table) : Z :=
  fold_right (fun r acc => Z.max (id r + 1) acc) 1 db.

(** [ViolationHistoryCRUD.add]: the row is stamped with the clock reading
    [now], added to the session and flushed; the new row is returned. *)
Definition add (now : Q) (db : table) (u : string) (step duration : Z)
    (count : option Z) (addresses : option (list string))
  : ViolationHistory * table :=
  let violation :=
    {| id := next_id db; username := u; timestamp := now;
       step_applied := step; disable_duration := duration;
       ip_count := count; ips := addresses |} in
  (violation, (db ++ [violation])%list).

(** [cutoff = time.time() - (window_hours * 3600)] *)
Definition cutoff (now : Q) (window_hours : Z) : Q :=
  (now - inject_Z (window_hours * 3600))%Q.

(** The [where] clause shared by both queries:
    [and_(username == username, timestamp >= cutoff)]. *)
Definition in_window (now : Q) (u : string) (window_hours : Z)
    (r : ViolationHistory) : bool :=
  String.eqb (username r) u && Qle_bool (cutoff now window_hours) (timestamp r).

(** Rows selected by the [where] clause, in table order. *)
Definition selected (now : Q) (db : table) (u : string) (window_hours : Z)
  : list ViolationHistory :=
  List.filter (in_window now u window_hours) db.

(** [order_by(timestamp.desc())]: insertion into a list that is already in
    descending order.  The database leaves the relative order of rows with
    equal timestamps open; here the row inserted goes before them. *)
Fixpoint insert_desc (r : ViolationHistory) (l : list ViolationHistory)
  : list ViolationHistory :=
  match l with
  | [] => [r]
  | x :: rest =>
      if Qle_bool (timestamp x) (timestamp r) then r :: x :: rest
      else x :: insert_desc r rest
  end.

Definition order_by_timestamp_desc (l : list ViolationHistory)
  : list ViolationHistory :=
  fold_right insert_desc [] l.

(** [ViolationHistoryCRUD.get_user_violations] *)
Definition get_user_violations (now : Q) (db : table) (u : string)
    (window_hours : Z) : list ViolationHistory :=
  order_by_timestamp_desc (selected now db u window_hours).

(** [ViolationHistoryCRUD.get_violation_count]: [count(id)] over the
    selected rows; the primary key is never null, so every row counts. *)
Definition get_violation_count (now : Q) (db : table) (u : string)
    (window_hours : Z) : Z :=
  Z.of_nat (List.length (selected now db u window_hours)).

(** [ViolationHistoryCRUD.clear_user]: [delete ... where username == u];
    returns [rowcount] and the remaining table. *)
Definition clear_user (db : table) (u : string) : Z * table :=
  (Z.of_nat (List.length (List.filter (fun r => String.eqb (username r) u) db)),
   List.filter (fun r => negb (String.eqb (username r) u)) db).

(** [ViolationHistoryCRUD.clear_all] *)
Definition clear_all (db : table) : Z * table :=
  (Z.of_nat (List.length db), []).

(** [ViolationHistoryCRUD.cleanup_old]: deletes rows with
    [timestamp < time.time() - days * 24 * 3600]. *)
Definition cleanup_old (now : Q) (db : table) (days : Z) : Z * table :=
  let limit := (now - inject_Z (days * 24 * 3600))%Q in
  let old r := negb (Qle_bool limit (timestamp r)) in
  (Z.of_nat (List.length (List.filter old db)),
   List.filter (fun r => negb (old r)) db).

(** The rows of one user, in table order. *)
Definition rows_of (db : table) (u : string) : list ViolationHistory :=
  List.filter (fun r => String.eqb (username r) u) db.

(** Orders on rows: not older than, and strictly newer than. *)
Definition not_older (a b : ViolationHistory) : Prop :=
  (timestamp b <= timestamp a)%Q.

Definition newer (a b : ViolationHistory) : Prop :=
  (timestamp b < timestamp a)%Q.

(** No two positions of the list hold rows with the same timestamp. *)
Definition distinct_timestamps (l : list ViolationHistory) : Prop :=
  ForallOrdPairs (fun a b => ~ (timestamp a == timestamp b)%Q) l.

End ViolationStore.

(** ** The configuration handlers of the bot *)

Module PunishmentConfig.

(** What [json.loads] builds: [None], [bool], [int], [float], [str], [list]
    and [dict].  A [dict] keeps its keys in insertion order. *)
Inductive json : Type :=
| JNull
| JBool (b : bool)
| JInt (z : Z)
| JFloat (q : Q)
| JString (s : string)
| JArray (items : list json)
| JObject (fields : list (string * json)).

Definition dict := list (string * json).

(** [d.get(k)] *)
Fixpoint dict_get (k : string) (d : dict) : option json :=
  match d with
  | [] => None
  | (k', v) :: rest => if String.eqb k' k then Some v else dict_get k rest
  end.

(** [d[k] = v]: an existing key keeps its position, a new key goes last. *)
Fixpoint dict_set (k : string) (v : json) (d : dict) : dict :=
  match d with
  | [] => [(k, v)]
  | (k', v') :: rest =>
      if String.eqb k' k then (k, v) :: rest else (k', v') :: dict_set k v rest
  end.

(** [k in d] *)
Definition dict_has (k : string) (d : dict) : bool :=
  match dict_get k d with Some _ => true | None => false end.

(** The messages of the [ValueError]s the handlers raise themselves. *)
Inductive value_error : Type :=
| NotANonEmptyArray
| InvalidStepType (step_type : json)
| InvalidDuration (duration : json)
| InvalidLiteral.

Inductive exn : Type :=
| ValueError (why : value_error)
| JSONDecodeError
| AttributeError
| TypeError.

(** Computations that return or raise. *)
Inductive result (A : Type) : Type :=
| Ok (a : A)
| Raise (e : exn).
Arguments Ok {A} a.
Arguments Raise {A} e.

#[global] Instance result_bind : MBind result :=
  fun A B (k : A -> result B) (m : result A) =>
    match m with
    | Ok a => k a
    | Raise e => Raise e
    end.

(** [step.get(key, default)]: only a [dict] has the method. *)
Definition py_get (step : json) (key : string) (default : json) : result json :=
  match step with
  | JObject fields =>
      Ok (match dict_get key fields with Some v => v | None => default end)
  | _ => Raise AttributeError
  end.

(** [step_type in ["warning", "disable"]]: membership by [==]; only a string
    equals a string. *)
Definition type_allowed (step_type : json) : bool :=
  match step_type with
  | JString s => String.eqb s "warning" || String.eqb s "disable"
  | _ => false
  end.

(** [isinstance(duration, int)]: [bool] is a subclass of [int]. *)
Definition isinstance_int (duration : json) : bool :=
  match duration with
  | JInt _ | JBool _ => true
  | _ => false
  end.

(** The integer an [int] instance stands for ([True] is 1, [False] is 0). *)
Definition int_value (duration : json) : Z :=
  match duration with
  | JInt z => z
  | JBool true => 1
  | _ => 0
  end.

(** The body of the validation loop of [punishment_set_steps]. *)
Definition validate_step (step : json) : result json :=
  step_type ← py_get step "type" (JString "disable") ;
  duration ← py_get step "duration" (JInt 0) ;
  if negb (type_allowed step_type) then
    Raise (ValueError (InvalidStepType step_type))
  else if negb (isinstance_int duration) || (int_value duration <? 0) then
    Raise (ValueError (InvalidDuration duration))
  else
    Ok (JObject [("type", step_type); ("duration", duration)]).

(** [for step in steps_data: ... validated_steps.append(...)] *)
Fixpoint validate_loop (steps_data validated_steps : list json)
  : result (list json) :=
  match steps_data with
  | [] => Ok validated_steps
  | step :: rest =>
      v ← validate_step step ;
      validate_loop rest (validated_steps ++ [v])%list
  end.

(** The check on [steps_data] followed by the loop. *)
Definition validate_steps_data (steps_data : json) : result (list json) :=
  match steps_data with
  | JArray [] => Raise (ValueError NotANonEmptyArray)
  | JArray items => validate_loop items []
  | _ => Raise (ValueError NotANonEmptyArray)
  end.

(** [config_data["punishment"][key] = value], or a fresh ["punishment"]
    entry when there is none.  Item assignment on anything but a [dict]
    raises [TypeError]. *)
Definition set_punishment_key (config_data : dict) (key : string)
    (value : json) (fresh : dict) : result dict :=
  match dict_get "punishment" config_data with
  | None => Ok (dict_set "punishment" (JObject fresh) config_data)
  | Some (JObject p) =>
      Ok (dict_set "punishment" (JObject (dict_set key value p)) config_data)
  | Some _ => Raise TypeError
  end.

(** What the handler answers. *)
Inductive reply : Type :=
| Denied
| Usage
| OutOfRange
| Invalid (e : exn)
| WindowUpdated (hours : Z)
| StepsUpdated (validated_steps : list json)
| Uncaught (e : exn).

(** [" ".join(context.args)] *)
Fixpoint join_args (args : list string) : string :=
  match args with
  | [] => ""
  | [a] => a
  | a :: rest => a ++ " " ++ join_args rest
  end.

Section Handlers.

(** [int(s)] and [json.loads(s)]; [None] stands for the [ValueError],
    respectively the [JSONDecodeError], they raise. *)
Variable int_of_str : string -> option Z.
Variable json_loads : string -> option json.

(** The [try] block of [punishment_set_window]; [None] is the early
    return after the range check. *)
Definition set_window_body (arg : string) (config_data : dict)
  : result (option (Z * dict)) :=
  hours ← match int_of_str arg with
           | Some h => Ok h
           | None => Raise (ValueError InvalidLiteral)
           end ;
  if (hours <? 1) || (hours >? 720) then Ok None
  else
    cfg ← set_punishment_key config_data "window_hours" (JInt hours)
             [("enabled", JBool true); ("window_hours", JInt hours);
              ("steps", JArray [])] ;
    Ok (Some (hours, cfg)).

(** [punishment_set_window]: [privileged] is the outcome of
    [check_admin_privilege]; the result is the configuration file after the
    call and the answer sent. *)
Definition punishment_set_window (privileged : bool) (args : list string)
    (config_data : dict) : dict * reply :=
  if negb privileged then (config_data, Denied)
  else
    match args with
    | [] => (config_data, Usage)
    | arg :: _ =>
        match set_window_body arg config_data with
        | Ok (Some (hours, cfg)) => (cfg, WindowUpdated hours)
        | Ok None => (config_data, OutOfRange)
        | Raise (ValueError _) => (config_data, Usage)
        | Raise JSONDecodeError => (config_data, Usage)
        | Raise e => (config_data, Uncaught e)
        end
    end.

(** The [try] block of [punishment_set_steps]. *)
Definition set_steps_body (args : list string) (config_data : dict)
  : result (list json * dict) :=
  steps_data ← match json_loads (join_args args) with
                | Some j => Ok j
                | None => Raise JSONDecodeError
                end ;
  validated_steps ← validate_steps_data steps_data ;
  cfg ← set_punishment_key config_data "steps" (JArray validated_steps)
           [("enabled", JBool true); ("window_hours", JInt 72);
            ("steps", JArray validated_steps)] ;
  Ok (validated_steps, cfg).

(** [punishment_set_steps] *)
Definition punishment_set_steps (privileged : bool) (args : list string)
    (config_data : dict) : dict * reply :=
  if negb privileged then (config_data, Denied)
  else
    match args with
    | [] => (config_data, Usage)
    | _ :: _ =>
        match set_steps_body args config_data with
        | Ok (validated_steps, cfg) => (cfg, StepsUpdated validated_steps)
        | Raise (ValueError why) => (config_data, Invalid (ValueError why))
        | Raise JSONDecodeError => (config_data, Invalid JSONDecodeError)
        | Raise e => (config_data, Uncaught e)
        end
    end.

End Handlers.

(** The three entries of the stored punishment configuration. *)
Definition stored (key : string) (config_data : dict) : option json :=
  match dict_get "punishment" config_data with
  | Some (JObject p) => dict_get key p
  | _ => None
  end.

(** The ["punishment"] entry is absent or a dictionary, as every writer of
    the configuration leaves it. *)
Definition punishment_entry_ok (config_data : dict) : bool :=
  match dict_get "punishment" config_data with
  | None | Some (JObject _) => true
  | Some _ => false
  end.

(** *** Vocabulary of the statements about the handlers *)

(** The two step types of the wire format. *)
Definition is_step_type (t : json) : Prop :=
  t = JString "warning" \/ t = JString "disable".

(** The integer a value is as a Python [int]; [True] and [False] are the
    integers 1 and 0, any other value is no integer. *)
Definition python_int (d : json) : option Z :=
  match d with
  | JInt z => Some z
  | JBool b => Some (if b then 1 else 0)
  | _ => None
  end.

Definition non_negative_integer (d : json) : Prop :=
  exists z, python_int d = Some z /\ 0 <= z.

Definition is_object (step : json) : Prop :=
  exists fields, step = JObject fields.

(** The element carries a ["type"] that is not a step type. *)
Definition bad_type (step : json) : Prop :=
  exists fields t,
    step = JObject fields /\ dict_get "type" fields = Some t /\ ~ is_step_type t.

(** The element carries a ["duration"] that is not a non-negative
    integer. *)
Definition bad_duration (step : json) : Prop :=
  exists fields d,
    step = JObject fields /\ dict_get "duration" fields = Some d /\
    ~ non_negative_integer d.

(** An element reduced to its type and duration, an absent type read as
    ["disable"] and an absent duration as [0]. *)
Definition reduced (step : json) : json :=
  match step with
  | JObject fields =>
      JObject [("type", default (JString "disable") (dict_get "type" fields));
               ("duration", default (JInt 0) (dict_get "duration" fields))]
  | other => other
  end.

(** The answer is the one sent after the steps were written. *)
Definition steps_updated (answer : reply) : Prop :=
  exists validated_steps, answer = StepsUpdated validated_steps.

End PunishmentConfig.

(** ** The escalation policy *)

Module PunishmentPolicy.

(** Modelled from the spec: [utils/punishment_system] is missing from the
    sources; a step is a type, one of warning and disable, and a duration
    in minutes. *)
Inductive step_type : Type := warning | disable.

(** Modelled from the spec: the [PunishmentStep] entity of the missing
    [utils/punishment_system]. *)
Record PunishmentStep : Type := mkStep {
  type : step_type;
  duration_minutes : Z
}.

(** Modelled from the spec: the built-in default sequence of the missing
    [load], warning, 15 minutes, 60 minutes, permanent. *)
Definition default_steps : list PunishmentStep :=
  [mkStep warning 0; mkStep disable 15; mkStep disable 60; mkStep disable 0].

(** Modelled from the spec: [clamp(n, lo, hi)] as used by the missing
    [step_for_count]. *)
Definition clamp (n lo hi : Z) : Z := Z.max lo (Z.min n hi).

(** Modelled from the spec: the escalation level [clamp(n, 0, len(steps)-1)]
    the missing [step_for_count] reads; the index of a step is its
    severity. *)
Definition step_index (steps : list PunishmentStep) (n : Z) : Z :=
  clamp n 0 (Z.of_nat (List.length steps) - 1).

(** Modelled from the spec: [step_for_count(n)] of the missing
    [utils/punishment_system], [steps[clamp(n, 0, len(steps)-1)]]; [None]
    is the index error on an empty sequence. *)
Definition step_for_count (steps : list PunishmentStep) (n : Z)
  : option PunishmentStep :=
  nth_error steps (Z.to_nat (step_index steps n)).

End PunishmentPolicy.

(** ** Monitoring after a warning *)

Module Monitoring.

(** Modelled from the spec: [utils/warning_system] is missing from the
    sources; a snapshot is the triple (timestamp, ip_count, ip_set). *)
Record snapshot : Type := mkSnapshot {
  snap_time : Q;
  snap_count : Z;
  snap_ips : gset string
}.

(** Modelled from the spec: the [MonitoringWarning] entity of the missing
    [utils/warning_system]. *)
Record MonitoringWarning : Type := mkWarning {
  username : string;
  created_at : Q;
  monitoring_duration : Z;
  ip_count : Z;
  snapshots : list snapshot
}.

(** Modelled from the spec: the transition NONE to MONITORING of the
    missing [utils/warning_system] records [created_at = now], the observed
    count and the monitoring duration, with no snapshot yet. *)
Definition create_warning (now : Q) (u : string) (observed : Z)
    (duration : Z) : MonitoringWarning :=
  {| username := u; created_at := now; monitoring_duration := duration;
     ip_count := observed; snapshots := [] |}.

(** Modelled from the spec: [time_remaining()] of the missing
    [MonitoringWarning], what is left of the monitoring window. *)
Definition time_remaining (now : Q) (w : MonitoringWarning) : Q :=
  (inject_Z (monitoring_duration w) - (now - created_at w))%Q.

(** Modelled from the spec: [is_monitoring_active()] of the missing
    [MonitoringWarning], false once
    [now - created_at >= monitoring_duration]. *)
Definition is_monitoring_active (now : Q) (w : MonitoringWarning) : bool :=
  negb (Qle_bool (inject_Z (monitoring_duration w)) (now - created_at w)).

(** Modelled from the spec: [record_snapshot(ip_set)] of the missing
    [MonitoringWarning] appends [(now, len(ip_set), ip_set)] and updates
    [ip_count]. *)
Definition record_snapshot (now : Q) (ip_set : gset string)
    (w : MonitoringWarning) : MonitoringWarning :=
  let n := Z.of_nat (size ip_set) in
  {| username := username w; created_at := created_at w;
     monitoring_duration := monitoring_duration w; ip_count := n;
     snapshots := (snapshots w ++ [mkSnapshot now n ip_set])%list |}.

(** Modelled from the spec: the result of the missing
    [analyze_user_activity_patterns]. *)
Record analysis : Type := mkAnalysis {
  total_snapshots : Z;
  peak_ip_count : Z;
  average_ip_count : Q;
  ip_change_frequency : Q;
  consistently_active_ips : gset string
}.

(** Modelled from the spec: the consistently-active threshold of the
    missing [utils/warning_system], 240 seconds. *)
Definition consistent_threshold : Q := inject_Z 240.

(** Modelled from the spec: peak of [ip_count] across snapshots in the
    missing [analyze_user_activity_patterns], zero when there is none. *)
Definition peak (snaps : list snapshot) : Z :=
  fold_right (fun s acc => Z.max (snap_count s) acc) 0 snaps.

(** Modelled from the spec: mean of [ip_count] across snapshots in the
    missing [analyze_user_activity_patterns], zero when there is none. *)
Definition average (snaps : list snapshot) : Q :=
  let total := fold_right (fun s acc => snap_count s + acc) 0 snaps in
  match snaps with
  | [] => 0%Q
  | _ :: _ => (inject_Z total / inject_Z (Z.of_nat (List.length snaps)))%Q
  end.

(** Modelled from the spec: the number of consecutive snapshot pairs whose
    address sets differ, for the change frequency of the missing
    [analyze_user_activity_patterns]. *)
Fixpoint changes (snaps : list snapshot) : Z :=
  match snaps with
  | a :: (b :: _) as rest =>
      (if bool_decide (snap_ips a = snap_ips b) then 0 else 1) + changes rest
  | _ => 0
  end.

(** Modelled from the spec: the fraction of transitions where the set
    differs, in the missing [analyze_user_activity_patterns]; zero when
    there is no transition. *)
Definition change_frequency (snaps : list snapshot) : Q :=
  let transitions := Z.of_nat (List.length snaps) - 1 in
  match snaps with
  | [] | [_] => 0%Q
  | _ => (inject_Z (changes snaps) / inject_Z transitions)%Q
  end.

(** Modelled from the spec: the timestamps of the snapshots an address is
    present in, for the missing [analyze_user_activity_patterns]. *)
Definition seen_at (ip : string) (snaps : list snapshot) : list Q :=
  List.map snap_time
    (List.filter (fun s => bool_decide (ip ∈ snap_ips s)) snaps).

(** Modelled from the spec: an address is consistently active when the
    snapshots it is present in span at least the threshold. *)
Definition spans_threshold (times : list Q) : bool :=
  match times with
  | [] => false
  | t :: rest =>
      Qle_bool consistent_threshold
        (fold_right Qmax t rest - fold_right Qmin t rest)
  end.

(** Modelled from the spec: every address of any snapshot, for the missing
    [analyze_user_activity_patterns]. *)
Definition all_ips (snaps : list snapshot) : gset string :=
  fold_right (fun s acc => snap_ips s ∪ acc) ∅ snaps.

(** Modelled from the spec: the analysis of a sequence of snapshots in the
    missing [analyze_user_activity_patterns]. *)
Definition analyze (snaps : list snapshot) : analysis :=
  {| total_snapshots := Z.of_nat (List.length snaps);
     peak_ip_count := peak snaps;
     average_ip_count := average snaps;
     ip_change_frequency := change_frequency snaps;
     consistently_active_ips :=
       list_to_set
         (List.filter (fun ip => spans_threshold (seen_at ip snaps))
            (elements (all_ips snaps))) |}.

(** Modelled from the spec: [analyze_user_activity_patterns(username)] of
    the missing [WarningSystem]; the registry maps a username to its
    warning, and an unknown username is analysed as having no snapshot. *)
Definition analyze_user_activity_patterns
    (warnings : gmap string MonitoringWarning) (u : string) : analysis :=
  match warnings !! u with
  | Some w => analyze (snapshots w)
  | None => analyze []
  end.

End Monitoring.

(** ** The other configuration commands of the bot *)

Module ConfigCommands.

Import PunishmentConfig.

(** The truth value Python gives a value: [None], [False], zero, the empty
    string, list and dictionary are false. *)
Definition truthy (j : json) : bool :=
  match j with
  | JNull => false
  | JBool b => b
  | JInt z => negb (z =? 0)
  | JFloat q => negb (Qeq_bool q 0)
  | JString s => negb (String.eqb s "")
  | JArray items => match items with [] => false | _ :: _ => true end
  | JObject fields => match fields with [] => false | _ :: _ => true end
  end.

(** What the toggling handlers and the callbacks answer. *)
Inductive toggle_reply : Type :=
| ToggleDenied
| Toggled (enabled : bool)
| WindowSet (hours : Z)
| NotHandled
| Failed (e : exn).

(** The [try] block shared by [punishment_toggle] and
    [group_filter_toggle]: a missing entry is created as [fresh], then
    [entry["enabled"] = not entry.get("enabled", default)].  [get] on an
    entry that is no dictionary raises [AttributeError]. *)
Definition toggle_body (entry : string) (fresh : dict) (default : json)
    (config_data : dict) : result (bool * dict) :=
  let config_data :=
    if dict_has entry config_data then config_data
    else dict_set entry (JObject fresh) config_data in
  match dict_get entry config_data with
  | Some (JObject p) =>
      let current_state :=
        match dict_get "enabled" p with Some v => v | None => default end in
      let new_state := negb (truthy current_state) in
      Ok (new_state,
          dict_set entry (JObject (dict_set "enabled" (JBool new_state) p))
            config_data)
  | _ => Raise AttributeError
  end.

Definition fresh_punishment : dict :=
  [("enabled", JBool true); ("window_hours", JInt 72); ("steps", JArray [])].

Definition fresh_group_filter : dict :=
  [("enabled", JBool true); ("mode", JString "include");
   ("group_ids", JArray [])].

(** A handler whose [try] block is guarded by [except Exception]: nothing
    is written when the block raises. *)
Definition guarded_toggle (privileged : bool) (body : dict -> result (bool * dict))
    (config_data : dict) : dict * toggle_reply :=
  if negb privileged then (config_data, ToggleDenied)
  else
    match body config_data with
    | Ok (new_state, cfg) => (cfg, Toggled new_state)
    | Raise e => (config_data, Failed e)
    end.

(** [punishment_toggle] *)
Definition punishment_toggle (privileged : bool) (config_data : dict)
  : dict * toggle_reply :=
  guarded_toggle privileged
    (toggle_body "punishment" fresh_punishment (JBool true)) config_data.

(** [group_filter_toggle] *)
Definition group_filter_toggle (privileged : bool) (config_data : dict)
  : dict * toggle_reply :=
  guarded_toggle privileged
    (toggle_body "group_filter" fresh_group_filter (JBool false)) config_data.

(** The constants of [CallbackData] the punishment menu sends. *)
Definition PUNISHMENT_TOGGLE : string := "punishment_toggle".
Definition PUNISHMENT_WINDOW_24 : string := "punishment_window_24".
Definition PUNISHMENT_WINDOW_48 : string := "punishment_window_48".
Definition PUNISHMENT_WINDOW_72 : string := "punishment_window_72".

(** [window_map] of [callback_query_handler] *)
Definition window_map (data : string) : option Z :=
  if String.eqb data PUNISHMENT_WINDOW_24 then Some 24
  else if String.eqb data PUNISHMENT_WINDOW_48 then Some 48
  else if String.eqb data PUNISHMENT_WINDOW_72 then Some 72
  else None.

(** The branches of [callback_query_handler] behind the buttons of the
    punishment menu: the toggle and the three windows.  Other callback
    data goes to branches that are not modelled here. *)
Definition punishment_callback (privileged : bool) (data : string)
    (config_data : dict) : dict * toggle_reply :=
  if negb privileged then (config_data, ToggleDenied)
  else if String.eqb data PUNISHMENT_TOGGLE then
    punishment_toggle true config_data
  else
    match window_map data with
    | Some hours =>
        match set_punishment_key config_data "window_hours" (JInt hours)
                [("enabled", JBool true); ("window_hours", JInt hours);
                 ("steps", JArray [])] with
        | Ok cfg => (cfg, WindowSet hours)
        | Raise e => (config_data, Failed e)
        end
    | None => (config_data, NotHandled)
    end.

(** *** The group filter *)

(** [group_id == element] for an [int] on the left: equal to an [int], a
    [bool] or a [float] of the same value, to nothing else. *)
Definition py_eq_int (group_id : Z) (element : json) : bool :=
  match element with
  | JInt z => group_id =? z
  | JBool b => group_id =? (if b then 1 else 0)
  | JFloat q => Qeq_bool q (inject_Z group_id)
  | _ => false
  end.

(** [group_id in current_ids]: by [==] on a list, by key on a dictionary
    (whose keys are strings), a [TypeError] on anything else. *)
Definition py_contains (group_id : Z) (current_ids : json) : result bool :=
  match current_ids with
  | JArray items => Ok (existsb (py_eq_int group_id) items)
  | JObject _ => Ok false
  | _ => Raise TypeError
  end.

(** [current_ids.remove(group_id)] on a list: the first equal element
    goes. *)
Fixpoint py_remove (group_id : Z) (items : list json) : list json :=
  match items with
  | [] => []
  | x :: rest =>
      if py_eq_int group_id x then rest else x :: py_remove group_id rest
  end.

(** [s.split(",")] *)
Fixpoint split_commas (s : string) : list string :=
  match s with
  | EmptyString => [EmptyString]
  | String c rest =>
      if Ascii.eqb c ","%char then EmptyString :: split_commas rest
      else
        match split_commas rest with
        | piece :: pieces => String c piece :: pieces
        | [] => [String c EmptyString]
        end
  end.

(** What the group filter commands answer. *)
Inductive group_reply : Type :=
| GroupDenied
| GroupUsage
| GroupInvalid
| GroupNoFilter
| GroupAlready (group_id : Z)
| GroupNotInFilter (group_id : Z)
| GroupAdded (group_id : Z)
| GroupRemoved (group_id : Z)
| GroupSet (group_ids : list Z)
| GroupMode (mode : string)
| GroupError (e : exn).

(** The end of a group filter handler: [except ValueError] answers that
    the ID is invalid, [except Exception] reports the error; nothing is
    written when the block raises. *)
Definition guarded_group (config_data : dict)
    (outcome : result (option dict * group_reply)) : dict * group_reply :=
  match outcome with
  | Ok (Some cfg, answer) => (cfg, answer)
  | Ok (None, answer) => (config_data, answer)
  | Raise (ValueError _) => (config_data, GroupInvalid)
  | Raise JSONDecodeError => (config_data, GroupInvalid)
  | Raise e => (config_data, GroupError e)
  end.

Section GroupFilter.

(** [int(s)], [s.strip()] and [s.lower()] of Python. *)
Variable int_of_str : string -> option Z.
Variable strip : string -> string.
Variable lower : string -> string.

Definition parse_int (s : string) : result Z :=
  match int_of_str s with
  | Some z => Ok z
  | None => Raise (ValueError InvalidLiteral)
  end.

(** The [try] block of [group_filter_add]. *)
Definition group_filter_add_body (arg : string) (config_data : dict)
  : result (option dict * group_reply) :=
  group_id ← parse_int arg ;
  match dict_get "group_filter" config_data with
  | None =>
      Ok (Some (dict_set "group_filter"
                  (JObject [("enabled", JBool false); ("mode", JString "include");
                            ("group_ids", JArray [JInt group_id])])
                  config_data),
          GroupAdded group_id)
  | Some entry =>
      current_ids ← py_get entry "group_ids" (JArray []) ;
      present ← py_contains group_id current_ids ;
      if (present : bool) then Ok (@None dict, GroupAlready group_id)
      else
        match current_ids, entry with
        | JArray items, JObject p =>
            let current_ids := JArray (items ++ [JInt group_id])%list in
            Ok (Some (dict_set "group_filter"
                        (JObject (dict_set "group_ids" current_ids p))
                        config_data),
                GroupAdded group_id)
        | _, _ => Raise AttributeError
        end
  end.

(** [group_filter_add] *)
Definition group_filter_add (privileged : bool) (args : list string)
    (config_data : dict) : dict * group_reply :=
  if negb privileged then (config_data, GroupDenied)
  else
    match args with
    | [] => (config_data, GroupUsage)
    | arg :: _ => guarded_group config_data (group_filter_add_body arg config_data)
    end.

(** The [try] block of [group_filter_remove]. *)
Definition group_filter_remove_body (arg : string) (config_data : dict)
  : result (option dict * group_reply) :=
  group_id ← parse_int arg ;
  match dict_get "group_filter" config_data with
  | None => Ok (@None dict, GroupNoFilter)
  | Some entry =>
      current_ids ← py_get entry "group_ids" (JArray []) ;
      present ← py_contains group_id current_ids ;
      if (present : bool) then
        match current_ids, entry with
        | JArray items, JObject p =>
            let current_ids := JArray (py_remove group_id items) in
            Ok (Some (dict_set "group_filter"
                        (JObject (dict_set "group_ids" current_ids p))
                        config_data),
                GroupRemoved group_id)
        | _, _ => Raise AttributeError
        end
      else Ok (@None dict, GroupNotInFilter group_id)
  end.

(** [group_filter_remove] *)
Definition group_filter_remove (privileged : bool) (args : list string)
    (config_data : dict) : dict * group_reply :=
  if negb privileged then (config_data, GroupDenied)
  else
    match args with
    | [] => (config_data, GroupUsage)
    | arg :: _ =>
        guarded_group config_data (group_filter_remove_body arg config_data)
    end.

(** The inner loop of [group_filter_set] over the pieces of one
    argument: [gid = gid.strip(); if gid: group_ids.append(int(gid))]. *)
Fixpoint parse_pieces (pieces : list string) (group_ids : list Z)
  : result (list Z) :=
  match pieces with
  | [] => Ok group_ids
  | gid :: rest =>
      let gid := strip gid in
      if String.eqb gid "" then parse_pieces rest group_ids
      else
        z ← parse_int gid ;
        parse_pieces rest (group_ids ++ [z])%list
  end.

(** The outer loop of [group_filter_set] over the arguments. *)
Fixpoint parse_group_ids (args : list string) (group_ids : list Z)
  : result (list Z) :=
  match args with
  | [] => Ok group_ids
  | arg :: rest =>
      group_ids ← parse_pieces (split_commas arg) group_ids ;
      parse_group_ids rest group_ids
  end.

(** [config_data["group_filter"][key] = value], or a fresh entry when
    there is none. *)
Definition set_group_filter_key (config_data : dict) (key : string)
    (value : json) (fresh : dict) : result dict :=
  match dict_get "group_filter" config_data with
  | None => Ok (dict_set "group_filter" (JObject fresh) config_data)
  | Some (JObject p) =>
      Ok (dict_set "group_filter" (JObject (dict_set key value p)) config_data)
  | Some _ => Raise TypeError
  end.

(** The [try] block of [group_filter_set]. *)
Definition group_filter_set_body (args : list string) (config_data : dict)
  : result (option dict * group_reply) :=
  group_ids ← parse_group_ids args [] ;
  let ids := JArray (List.map JInt group_ids) in
  cfg ← set_group_filter_key config_data "group_ids" ids
          [("enabled", JBool false); ("mode", JString "include");
           ("group_ids", ids)] ;
  Ok (Some cfg, GroupSet group_ids).

(** [group_filter_set] *)
Definition group_filter_set (privileged : bool) (args : list string)
    (config_data : dict) : dict * group_reply :=
  if negb privileged then (config_data, GroupDenied)
  else
    match args with
    | [] => (config_data, GroupUsage)
    | _ :: _ => guarded_group config_data (group_filter_set_body args config_data)
    end.

(** [group_filter_mode] *)
Definition group_filter_mode (privileged : bool) (args : list string)
    (config_data : dict) : dict * group_reply :=
  if negb privileged then (config_data, GroupDenied)
  else
    match args with
    | [] => (config_data, GroupUsage)
    | arg :: _ =>
        let mode := lower arg in
        if negb (String.eqb mode "include" || String.eqb mode "exclude") then
          (config_data, GroupInvalid)
        else
          match set_group_filter_key config_data "mode" (JString mode)
                  [("enabled", JBool false); ("mode", JString mode);
                   ("group_ids", JArray [])] with
          | Ok cfg => (cfg, GroupMode mode)
          | Raise e => (config_data, GroupError e)
          end
    end.

End GroupFilter.

(** The entries of the stored group filter. *)
Definition stored_filter (key : string) (config_data : dict) : option json :=
  match dict_get "group_filter" config_data with
  | Some (JObject p) => dict_get key p
  | _ => None
  end.

(** How often [group_id] occurs in a list, by [==]. *)
Definition occurrences (group_id : Z) (items : list json) : nat :=
  List.length (List.filter (py_eq_int group_id) items).

(** A stored step as [punishment_set_steps] writes it: a dictionary with
    exactly the keys ["type"] and ["duration"], a step type and a
    non-negative integer. *)
Definition well_formed_step (step : json) : Prop :=
  exists t d,
    step = JObject [("type", t); ("duration", d)] /\
    is_step_type t /\ non_negative_integer d.

End ConfigCommands.

(** ** The keyboard of the disabled users *)

Module DisabledUsersKeyboard.

(** A slice bound of Python: a negative index counts from the end, and
    the result is clipped to the list. *)
Definition clip (len i : Z) : Z :=
  if i <? 0 then Z.max (i + len) 0 else Z.min i len.

(** [l[start:stop]] *)
Definition py_slice {A : Type} (l : list A) (start stop : Z) : list A :=
  let len := Z.of_nat (List.length l) in
  let lo := clip len start in
  let hi := clip len stop in
  firstn (Z.to_nat (hi - lo)) (skipn (Z.to_nat lo) l).

(** [int(x)] on a [float]: the fraction is cut off, towards zero. *)
Definition int_of_float (x : Q) : Z := Z.quot (Qnum x) (Zpos (Qden x)).

(** The text in the brackets of a user button. *)
Inductive time_str : Type :=
| HoursAgo (hours : Z)
| MinutesAgo (minutes : Z).

(** The buttons, by what they show and the callback data they carry. *)
Inductive button : Type :=
| UserInfo (username : string) (since : time_str)
| EnableUser (username : string)
| Prev (page : Z)
| Next (page : Z)
| EnableAll (total_users : Z)
| Refresh
| BackToUsers.

(** [total_pages = max(1, (total_users + per_page - 1) // per_page)] *)
Definition total_pages (total_users per_page : Z) : Z :=
  Z.max 1 ((total_users + per_page - 1) / per_page).

(** [users_list[start_idx:end_idx]] of the page. *)
Definition page_users {A : Type} (users_list : list A) (page per_page : Z)
  : list A :=
  let total_users := Z.of_nat (List.length users_list) in
  let start_idx := page * per_page in
  let end_idx := Z.min (start_idx + per_page) total_users in
  py_slice users_list start_idx end_idx.

Section Floats.

(** [x - y] on two [float]s: the difference rounded to a [float].  The
    rounding of binary floating point is not modelled; the subtraction is
    taken as it comes. *)
Variable float_sub : Q -> Q -> Q.

(** The label of one user: minutes since the user was disabled, hours
    from sixty minutes on, counted on the difference as computed. *)
Definition time_label (current_time disabled_time : Q) : time_str :=
  let elapsed := int_of_float (float_sub current_time disabled_time) in
  let minutes := elapsed / 60 in
  if minutes >=? 60 then HoursAgo (minutes / 60) else MinutesAgo minutes.

(** The row of navigation buttons. *)
Definition nav_buttons (page pages : Z) : list button :=
  ((if page >? 0 then [Prev (page - 1)] else [])
   ++ (if page <? pages - 1 then [Next (page + 1)] else []))%list.

(** [create_disabled_users_keyboard]: [disabled_users] is the dictionary
    in insertion order; [None] is the [ZeroDivisionError] of a zero
    [per_page]. *)
Definition create_disabled_users_keyboard (current_time : Q)
    (disabled_users : list (string * Q)) (page per_page : Z)
  : option (list (list button)) :=
  if per_page =? 0 then None
  else
    let users_list := disabled_users in
    let total_users := Z.of_nat (List.length users_list) in
    let pages := total_pages total_users per_page in
    let user_rows :=
      List.map (fun '(username, disabled_time) =>
                  [UserInfo username (time_label current_time disabled_time);
                   EnableUser username])
        (page_users users_list page per_page) in
    let nav := nav_buttons page pages in
    Some (user_rows
          ++ (match nav with [] => [] | _ :: _ => [nav] end)
          ++ (if total_users >? 0 then [[EnableAll total_users]] else [])
          ++ [[Refresh]; [BackToUsers]])%list.

End Floats.

(** The buttons that turn the page. *)
Definition is_nav (b : button) : Prop :=
  match b with Prev _ | Next _ => True | _ => False end.

End DisabledUsersKeyboard.

(** ** Proof automation *)

(** Closes [~ Exists bad_type l] and [~ Exists bad_duration l] on a
    literal list of dictionaries. *)
Ltac no_bad_element :=
  let H := fresh in
  let E := fresh in
  let G := fresh in
  let B := fresh in
  intros H; apply Exists_exists in H;
  destruct H as (? & H & ? & ? & E & G & B); cbn [In] in H;
  repeat (destruct H as [H | H]; [subst | ]); try contradiction;
  injection E as <-; cbn in G; try discriminate G; injection G as <-;
  apply B;
  first [ left; reflexivity | right; reflexivity
        | eexists; split; [reflexivity | cbn; lia] ].

Ltac all_objects := repeat constructor; eexists; reflexivity.

(** * Properties *)

(** ** Windowed queries on the violation table *)

Section Windowing.

Import ViolationStore.

Lemma inject_Z_hours (w : Z) :
  (inject_Z (w * 3600) == inject_Z w * 3600)%Q.
Proof. rewrite inject_Z_mult. reflexivity. Qed.

(** The [where] clause, read as the age of the row at the time of the
    query. *)
Lemma in_window_spec (now : Q) (u : string) (w : Z) (r : ViolationHistory) :
  in_window now u w r = true <->
  username r = u /\ (now - timestamp r <= inject_Z w * 3600)%Q.
Proof.
  unfold in_window, cutoff.
  rewrite andb_true_iff, String.eqb_eq, Qle_bool_iff, inject_Z_hours.
  split; intros [Hu Ht]; split; trivial; lra.
Qed.

Lemma in_window_false (now : Q) (u : string) (w : Z) (r : ViolationHistory) :
  in_window now u w r = false <->
  username r <> u \/ (inject_Z w * 3600 < now - timestamp r)%Q.
Proof.
  rewrite <- not_true_iff_false, in_window_spec.
  destruct (String.eqb_spec (username r) u) as [Hu | Hu];
    destruct (Qlt_le_dec (inject_Z w * 3600) (now - timestamp r)) as [Ht | Ht].
  - split; [now right | intros _ [_ H]; lra].
  - split; [intros H; exfalso; apply H; now split | intros [H | H] _; [easy | lra]].
  - split; [now left | intros _ [H _]; easy].
  - split; [now left | intros _ [H _]; easy].
Qed.

Lemma selected_app (now : Q) (db1 db2 : table) (u : string) (w : Z) :
  selected now (db1 ++ db2)%list u w
  = (selected now db1 u w ++ selected now db2 u w)%list.
Proof. unfold selected. apply filter_app. Qed.

(** C1. A violation added for [u] at clock reading [T] is counted by
    [get_violation_count(u, w)] evaluated at [T'] exactly when
    [T' - T <= w * 3600]: the new row carries the timestamp [T], it is among
    the counted rows iff it is that recent (the boundary included), and the
    count is one more than without it in that case and the same
    otherwise. *)
Theorem violation_counted_iff_within_window
    (T T' : Q) (db : table) (u : string) (w step duration : Z)
    (count : option Z) (addresses : option (list string)) :
  let r := fst (add T db u step duration count addresses) in
  let db' := snd (add T db u step duration count addresses) in
  timestamp r = T /\ username r = u /\
  (In r (selected T' db' u w) <-> (T' - T <= inject_Z w * 3600)%Q) /\
  (get_violation_count T' db' u w = get_violation_count T' db u w + 1
   <-> (T' - T <= inject_Z w * 3600)%Q) /\
  (get_violation_count T' db' u w = get_violation_count T' db u w
   <-> (inject_Z w * 3600 < T' - T)%Q).
Proof.
  cbn zeta. unfold add; cbn [fst snd].
  set (r := {| id := next_id db; username := u; timestamp := T;
               step_applied := step; disable_duration := duration;
               ip_count := count; ips := addresses |}).
  assert (Hspec : in_window T' u w r = true <-> (T' - T <= inject_Z w * 3600)%Q).
  { rewrite in_window_spec. subst r; cbn. tauto. }
  split; [reflexivity | split; [reflexivity | ]].
  unfold get_violation_count. rewrite selected_app, length_app.
  unfold selected. cbn [List.filter].
  assert (Hneg : in_window T' u w r = false <-> (inject_Z w * 3600 < T' - T)%Q).
  { rewrite in_window_false. subst r; cbn. intuition congruence. }
  destruct (in_window T' u w r) eqn:E; cbn [List.length].
  - assert (Hin : (T' - T <= inject_Z w * 3600)%Q) by now apply Hspec.
    split; [ | split].
    + rewrite in_app_iff. split; [trivial | intros _; right; now left].
    + split; [trivial | intros _; lia].
    + split; [intros H; lia | intros H; lra].
  - assert (Hout : (inject_Z w * 3600 < T' - T)%Q) by now apply Hneg.
    split; [ | split].
    + rewrite in_app_iff, filter_In.
      split; [intros [[_ H] | []]; congruence | intros H; lra].
    + split; [intros H; lia | intros H; lra].
    + split; [trivial | intros _; lia].
Qed.

End Windowing.

(** ** Clearing the history of one user *)

Section Clearing.

Import ViolationStore.

Lemma selected_after_clear (now : Q) (db : table) (u : string) (w : Z) :
  selected now (snd (clear_user db u)) u w = [].
Proof.
  unfold selected, clear_user; cbn [snd].
  induction db as [ | r db IH]; [reflexivity | ].
  cbn [List.filter].
  destruct (String.eqb (username r) u) eqn:E; cbn [negb]; [exact IH | ].
  cbn [List.filter]. unfold in_window at 1. rewrite E. exact IH.
Qed.

Lemma filter_other_user (f : ViolationHistory -> bool) (db : table)
    (u v : string) :
  u <> v ->
  (forall r, f r = true -> username r = v) ->
  List.filter f (snd (clear_user db u)) = List.filter f db.
Proof.
  intros Huv Hf. unfold clear_user; cbn [snd].
  induction db as [ | r db IH]; [reflexivity | ].
  cbn [List.filter].
  destruct (String.eqb_spec (username r) u) as [E | E]; cbn [negb].
  - destruct (f r) eqn:F; [ | exact IH].
    apply Hf in F. congruence.
  - cbn [List.filter]. rewrite IH. reflexivity.
Qed.

Lemma clear_user_In (db : table) (u : string) (r : ViolationHistory) :
  In r (snd (clear_user db u)) <-> In r db /\ username r <> u.
Proof.
  unfold clear_user; cbn [snd].
  rewrite filter_In, negb_true_iff, String.eqb_neq. reflexivity.
Qed.

Lemma rows_of_after_clear (db : table) (u : string) :
  rows_of (snd (clear_user db u)) u = [].
Proof.
  unfold rows_of, clear_user; cbn [snd].
  induction db as [ | r db IH]; [reflexivity | ].
  cbn [List.filter].
  destruct (String.eqb (username r) u) eqn:E; cbn [negb]; [exact IH | ].
  cbn [List.filter]. rewrite E. exact IH.
Qed.

Lemma clear_user_lengths (db : table) (u : string) :
  (List.length (rows_of db u) + List.length (snd (clear_user db u)))%nat
  = List.length db.
Proof.
  unfold rows_of, clear_user; cbn [snd].
  induction db as [ | r db IH]; [reflexivity | ].
  cbn [List.filter].
  destruct (String.eqb (username r) u); cbn [negb List.length]; lia.
Qed.

(** C4. After [clear_user(u)], [get_violation_count(u, w)] is 0 for every
    window and every clock reading, whatever the table held before. *)
Theorem count_after_clear_user_is_zero
    (now : Q) (db : table) (u : string) (w : Z) :
  get_violation_count now (snd (clear_user db u)) u w = 0.
Proof.
  unfold get_violation_count. rewrite selected_after_clear. reflexivity.
Qed.

(** C9. [clear_user(u)] deletes all and only the rows of [u]: a row is left
    iff it was there and belongs to another user, the number returned is
    the number of rows of [u] (the table shrinks by as much), and for a
    user [v] other than [u] the rows of [v], their order, and every
    windowed count and listing for [v] are what they were. *)
Theorem clear_user_frame (db : table) (u v : string) (Huv : u <> v) :
  let n := fst (clear_user db u) in
  let db' := snd (clear_user db u) in
  (forall r, In r db' <-> In r db /\ username r <> u) /\
  rows_of db' u = [] /\
  n = Z.of_nat (List.length (rows_of db u)) /\
  n = Z.of_nat (List.length db) - Z.of_nat (List.length db') /\
  rows_of db' v = rows_of db v /\
  (forall now w, get_violation_count now db' v w = get_violation_count now db v w) /\
  (forall now w, get_user_violations now db' v w = get_user_violations now db v w).
Proof.
  cbn zeta.
  assert (Hsel : forall now w,
             selected now (snd (clear_user db u)) v w = selected now db v w).
  { intros now w. apply (filter_other_user _ db u v Huv).
    intros r Hr. now apply in_window_spec in Hr. }
  split; [intros r; apply clear_user_In | ].
  split; [apply rows_of_after_clear | ].
  split; [reflexivity | ].
  split.
  { pose proof (clear_user_lengths db u) as Hlen.
    unfold clear_user at 1; cbn [fst]. fold (rows_of db u). lia. }
  split.
  { unfold rows_of. apply (filter_other_user _ db u v Huv).
    intros r Hr. now apply String.eqb_eq. }
  split; intros now w.
  - unfold get_violation_count. now rewrite Hsel.
  - unfold get_user_violations. now rewrite Hsel.
Qed.

Lemma clear_user_frame_witness :
  "alice" <> "bob" /\
  rows_of
    (snd (clear_user
            [mkViolation 1 "alice" 10 0 0 None None;
             mkViolation 2 "bob" 20 1 15 (Some 3) None;
             mkViolation 3 "alice" 30 1 15 None None] "alice")) "bob"
  = [mkViolation 2 "bob" 20 1 15 (Some 3) None].
Proof.
  assert (H : "alice" <> "bob") by discriminate.
  split; [exact H | ].
  exact (proj1 (proj2 (proj2 (proj2 (proj2
    (clear_user_frame
       [mkViolation 1 "alice" 10 0 0 None None;
        mkViolation 2 "bob" 20 1 15 (Some 3) None;
        mkViolation 3 "alice" 30 1 15 None None] "alice" "bob" H)))))).
Defined.

End Clearing.

(** ** Listing the violations of a user *)

Section Listing.

Import ViolationStore.

Lemma insert_desc_perm (r : ViolationHistory) (l : list ViolationHistory) :
  Permutation (insert_desc r l) (r :: l).
Proof.
  induction l as [ | x l IH]; cbn [insert_desc]; [reflexivity | ].
  destruct (Qle_bool (timestamp x) (timestamp r)); [reflexivity | ].
  rewrite IH. apply perm_swap.
Qed.

Lemma order_by_timestamp_desc_perm (l : list ViolationHistory) :
  Permutation (order_by_timestamp_desc l) l.
Proof.
  induction l as [ | r l IH]; [reflexivity | ].
  cbn [order_by_timestamp_desc fold_right].
  rewrite insert_desc_perm. now apply perm_skip.
Qed.

Lemma Qle_bool_false (x y : Q) : Qle_bool x y = false -> (y < x)%Q.
Proof.
  intros H. apply Qnot_le_lt. intros Hle.
  apply Qle_bool_iff in Hle. congruence.
Qed.

Lemma insert_desc_sorted (r : ViolationHistory) (l : list ViolationHistory) :
  StronglySorted not_older l -> StronglySorted not_older (insert_desc r l).
Proof.
  induction 1 as [ | x l Hs IH Hx]; cbn [insert_desc].
  - constructor; constructor.
  - destruct (Qle_bool (timestamp x) (timestamp r)) eqn:E.
    + apply Qle_bool_iff in E.
      constructor; [now constructor | ].
      constructor; [exact E | ].
      eapply Forall_impl; [ | exact Hx].
      unfold not_older. intros y Hy. lra.
    + apply Qle_bool_false in E.
      constructor; [exact IH | ].
      eapply Permutation_Forall; [symmetry; apply insert_desc_perm | ].
      constructor; [unfold not_older; lra | exact Hx].
Qed.

Lemma insert_desc_strict (r : ViolationHistory) (l : list ViolationHistory) :
  Forall (fun x => ~ (timestamp r == timestamp x)%Q) l ->
  StronglySorted newer l -> StronglySorted newer (insert_desc r l).
Proof.
  intros Hd Hs. revert Hd.
  induction Hs as [ | x l Hs IH Hx]; intros Hd; cbn [insert_desc].
  - constructor; constructor.
  - inversion Hd as [ | ? ? Hrx Hd']; subst.
    destruct (Qle_bool (timestamp x) (timestamp r)) eqn:E.
    + apply Qle_bool_iff in E.
      assert (Hlt : (timestamp x < timestamp r)%Q).
      { apply Qle_lteq in E. destruct E as [E | E]; [exact E | ].
        exfalso. apply Hrx. now symmetry. }
      constructor; [now constructor | ].
      constructor; [exact Hlt | ].
      eapply Forall_impl; [ | exact Hx].
      unfold newer. intros y Hy. lra.
    + apply Qle_bool_false in E.
      constructor; [now apply IH | ].
      eapply Permutation_Forall; [symmetry; apply insert_desc_perm | ].
      constructor; [exact E | exact Hx].
Qed.

Lemma order_by_timestamp_desc_sorted (l : list ViolationHistory) :
  StronglySorted not_older (order_by_timestamp_desc l).
Proof.
  induction l as [ | r l IH]; [constructor | ].
  cbn [order_by_timestamp_desc fold_right]. now apply insert_desc_sorted.
Qed.

Lemma order_by_timestamp_desc_strict (l : list ViolationHistory) :
  distinct_timestamps l -> StronglySorted newer (order_by_timestamp_desc l).
Proof.
  induction 1 as [ | r l Hr Hl IH]; [constructor | ].
  cbn [order_by_timestamp_desc fold_right].
  apply insert_desc_strict; [ | exact IH].
  eapply Permutation_Forall; [symmetry; apply order_by_timestamp_desc_perm | ].
  exact Hr.
Qed.

(** C5 (amended). [get_user_violations(u, w)] returns exactly the rows
    selected by the query, each as often as the table holds it: the rows of
    [u] whose timestamp is at least [now - w * 3600].  They come newest
    first, no row before a newer one; the order is strictly descending
    when the selected rows have pairwise different timestamps. *)
Theorem get_user_violations_newest_first
    (now : Q) (db : table) (u : string) (w : Z) :
  let l := get_user_violations now db u w in
  Permutation l (selected now db u w) /\
  (forall r, In r l <->
     In r db /\ username r = u /\ (now - timestamp r <= inject_Z w * 3600)%Q) /\
  StronglySorted not_older l /\
  (distinct_timestamps (selected now db u w) -> StronglySorted newer l).
Proof.
  cbn zeta. unfold get_user_violations.
  split; [apply order_by_timestamp_desc_perm | ].
  split; [ | split].
  - intros r. split.
    + intros H.
      apply (Permutation_in _ (order_by_timestamp_desc_perm _)) in H.
      unfold selected in H. apply filter_In in H.
      destruct H as [Hin Hw]. apply in_window_spec in Hw. tauto.
    + intros (Hin & Hu & Ht).
      apply (Permutation_in _ (Permutation_sym (order_by_timestamp_desc_perm _))).
      unfold selected. apply filter_In.
      split; [exact Hin | ]. apply in_window_spec. tauto.
  - apply order_by_timestamp_desc_sorted.
  - apply order_by_timestamp_desc_strict.
Qed.

Lemma get_user_violations_newest_first_witness :
  let db := [mkViolation 1 "alice" 10 0 0 None None;
             mkViolation 2 "bob" 15 0 0 None None;
             mkViolation 3 "alice" 20 1 15 None None] in
  distinct_timestamps (selected 30 db "alice" 1) /\
  StronglySorted newer (get_user_violations 30 db "alice" 1).
Proof.
  cbn zeta.
  assert (H : distinct_timestamps
                (selected 30
                   [mkViolation 1 "alice" 10 0 0 None None;
                    mkViolation 2 "bob" 15 0 0 None None;
                    mkViolation 3 "alice" 20 1 15 None None] "alice" 1)).
  { repeat constructor. cbn. intros E. discriminate E. }
  split; [exact H | ].
  exact (proj2 (proj2 (proj2
    (get_user_violations_newest_first 30
       [mkViolation 1 "alice" 10 0 0 None None;
        mkViolation 2 "bob" 15 0 0 None None;
        mkViolation 3 "alice" 20 1 15 None None] "alice" 1))) H).
Defined.

(** C5 as stated fails: two rows of one user stamped with the same clock
    reading are both returned, and neither is strictly newer than the
    other. *)
Lemma listing_with_equal_timestamps_not_strict :
  let db := [mkViolation 1 "alice" 100 0 0 None None;
             mkViolation 2 "alice" 100 1 15 None None] in
  get_user_violations 100 db "alice" 1
  = [mkViolation 1 "alice" 100 0 0 None None;
     mkViolation 2 "alice" 100 1 15 None None] /\
  ~ StronglySorted newer (get_user_violations 100 db "alice" 1).
Proof.
  cbn zeta.
  assert (E : get_user_violations 100
                [mkViolation 1 "alice" 100 0 0 None None;
                 mkViolation 2 "alice" 100 1 15 None None] "alice" 1
              = [mkViolation 1 "alice" 100 0 0 None None;
                 mkViolation 2 "alice" 100 1 15 None None])
    by reflexivity.
  split; [exact E | ].
  rewrite E. intros H.
  inversion H as [ | ? ? _ Hall]; subst.
  inversion Hall as [ | ? ? Hlt _]; subst.
  unfold newer in Hlt; cbn in Hlt. revert Hlt. apply Qlt_irrefl.
Qed.

End Listing.

(** ** The configuration handlers *)

Section Dictionaries.

Import PunishmentConfig.

Lemma dict_get_set_same (k : string) (v : json) (d : dict) :
  dict_get k (dict_set k v d) = Some v.
Proof.
  induction d as [ | [k' v'] d IH]; cbn [dict_set dict_get].
  - now rewrite String.eqb_refl.
  - destruct (String.eqb k' k) eqn:E; cbn [dict_get].
    + now rewrite String.eqb_refl.
    + now rewrite E.
Qed.

Lemma dict_get_set_other (k k' : string) (v : json) (d : dict) :
  k <> k' -> dict_get k' (dict_set k v d) = dict_get k' d.
Proof.
  intros Hk.
  induction d as [ | [k0 v0] d IH]; cbn [dict_set dict_get].
  - apply String.eqb_neq in Hk. now rewrite Hk.
  - destruct (String.eqb_spec k0 k) as [E | E]; cbn [dict_get].
    + subst k0. apply String.eqb_neq in Hk. now rewrite Hk.
    + now rewrite IH.
Qed.

Lemma type_allowed_spec (t : json) :
  type_allowed t = true <-> is_step_type t.
Proof.
  unfold is_step_type. destruct t; cbn [type_allowed];
    try (split; [discriminate | intros [H | H]; discriminate H]).
  rewrite orb_true_iff, !String.eqb_eq.
  split; intros [H | H]; [left | right | left | right]; congruence.
Qed.

Lemma duration_allowed_spec (d : json) :
  negb (isinstance_int d) || (int_value d <? 0) = false <->
  non_negative_integer d.
Proof.
  unfold non_negative_integer.
  destruct d as [ | [ | ] | z | q | s | l | f];
    cbn [isinstance_int int_value python_int negb orb];
    try (split; [discriminate | intros (z' & H & _); discriminate H]).
  - split; [intros _; exists 1; split; [reflexivity | lia] | reflexivity].
  - split; [intros _; exists 0; split; [reflexivity | lia] | reflexivity].
  - rewrite Z.ltb_ge. split.
    + intros H. exists z. now split.
    + intros (z' & H & Hz). injection H as ->. exact Hz.
Qed.

(** One round of the loop on a dictionary, in terms of the statements'
    vocabulary. *)
Lemma validate_step_object (fields : dict) :
  (validate_step (JObject fields) = Ok (reduced (JObject fields)) /\
   ~ bad_type (JObject fields) /\ ~ bad_duration (JObject fields)) \/
  ((exists why, validate_step (JObject fields) = Raise (ValueError why)) /\
   (bad_type (JObject fields) \/ bad_duration (JObject fields))).
Proof.
  unfold validate_step, py_get, mbind, result_bind. cbn [reduced].
  set (t := match dict_get "type" fields with
            | Some v => v | None => JString "disable" end).
  set (d := match dict_get "duration" fields with
            | Some v => v | None => JInt 0 end).
  destruct (type_allowed t) eqn:Et; cbn [negb].
  - destruct (negb (isinstance_int d) || (int_value d <? 0)) eqn:Ed.
    + right. split; [eauto | ]. right.
      destruct (dict_get "duration" fields) as [d0 | ] eqn:Eg.
      * exists fields, d0. repeat split; trivial.
        intros H. apply duration_allowed_spec in H. subst d. congruence.
      * subst d. discriminate Ed.
    + left. split; [ | split].
      * unfold default, t, d.
        destruct (dict_get "type" fields), (dict_get "duration" fields);
          reflexivity.
      * intros (f & t0 & Ef & Eg & Hbad). injection Ef as <-.
        apply Hbad, type_allowed_spec. subst t. now rewrite Eg in Et.
      * intros (f & d0 & Ef & Eg & Hbad). injection Ef as <-.
        apply Hbad, duration_allowed_spec. subst d. now rewrite Eg in Ed.
  - right. split; [eauto | ]. left.
    destruct (dict_get "type" fields) as [t0 | ] eqn:Eg.
    + exists fields, t0. repeat split; trivial.
      intros H. apply type_allowed_spec in H. subst t. congruence.
    + subst t. discriminate Et.
Qed.

(** The loop on an array of dictionaries: it returns the reduced elements
    behind what was validated before, or stops at the first bad element
    with a [ValueError]. *)
Lemma validate_loop_objects (items validated : list json) :
  Forall is_object items ->
  (validate_loop items validated = Ok (validated ++ List.map reduced items)%list /\
   ~ Exists bad_type items /\ ~ Exists bad_duration items) \/
  ((exists why, validate_loop items validated = Raise (ValueError why)) /\
   (Exists bad_type items \/ Exists bad_duration items)).
Proof.
  intros Hobj. revert validated.
  induction Hobj as [ | step items [fields ->] Hobj IH]; intros validated.
  - left. cbn [validate_loop List.map]. rewrite app_nil_r.
    repeat split; intros H; inversion H.
  - cbn [validate_loop]. unfold mbind, result_bind.
    destruct (validate_step_object fields) as [(-> & Ht & Hd) | [[why ->] Hbad]].
    + destruct (IH (validated ++ [reduced (JObject fields)])%list)
        as [(-> & Ht' & Hd') | [Hraise Hbad]].
      * left. cbn [List.map]. rewrite <- app_assoc. cbn [app].
        repeat split; intros H; inversion H; subst; tauto.
      * right. split; [exact Hraise | ].
        destruct Hbad as [H | H]; [left | right]; now apply Exists_cons_tl.
    + right. split; [eauto | ].
      destruct Hbad as [H | H]; [left | right]; now apply Exists_cons_hd.
Qed.

(** On any array, a bad element keeps the loop from returning. *)
Lemma validate_loop_bad (items validated : list json) :
  Exists bad_type items \/ Exists bad_duration items ->
  exists e, validate_loop items validated = Raise e.
Proof.
  revert validated.
  induction items as [ | step items IH]; intros validated Hbad.
  - destruct Hbad as [H | H]; inversion H.
  - cbn [validate_loop]. unfold mbind, result_bind.
    destruct (validate_step step) as [v | e] eqn:Ev; [ | eauto].
    apply IH.
    assert (Hobj : is_object step).
    { destruct step; try discriminate Ev. eexists; reflexivity. }
    destruct Hobj as [fields ->].
    destruct (validate_step_object fields) as [(_ & Ht & Hd) | [[why E] _]];
      [ | congruence].
    destruct Hbad as [H | H]; inversion H; subst; tauto.
Qed.

(** The loop returns on dictionaries only: [get] on anything else raises
    [AttributeError]. *)
Lemma validate_loop_returns_objects (items validated result : list json) :
  validate_loop items validated = Ok result -> Forall is_object items.
Proof.
  revert validated.
  induction items as [ | step items IH]; intros validated H; [constructor | ].
  cbn [validate_loop] in H. unfold mbind, result_bind in H.
  destruct (validate_step step) as [v | e] eqn:Ev; [ | discriminate H].
  constructor; [ | eapply IH; exact H].
  destruct step; try discriminate Ev. eexists; reflexivity.
Qed.

(** Writing one key of the ["punishment"] entry. *)
Lemma set_punishment_key_ok (config_data : dict) (key : string) (value : json)
    (fresh : dict) :
  punishment_entry_ok config_data = true ->
  dict_get key fresh = Some value ->
  exists cfg,
    set_punishment_key config_data key value fresh = Ok cfg /\
    stored key cfg = Some value /\
    (forall k, k <> key -> dict_has "punishment" config_data = true ->
               stored k cfg = stored k config_data) /\
    (forall k, dict_has "punishment" config_data = false ->
               stored k cfg = dict_get k fresh) /\
    (forall k, k <> "punishment" -> dict_get k cfg = dict_get k config_data).
Proof.
  unfold punishment_entry_ok, set_punishment_key, stored, dict_has.
  intros Hok Hfresh.
  destruct (dict_get "punishment" config_data) as [[ | | | | | | p] | ] eqn:E;
    try discriminate Hok; eexists; (split; [reflexivity | ]);
    rewrite dict_get_set_same.
  - split; [apply dict_get_set_same | ].
    split; [intros k Hk _; now apply dict_get_set_other | ].
    split; [discriminate | ].
    intros k Hk. apply dict_get_set_other. congruence.
  - split; [exact Hfresh | ].
    split; [discriminate | ].
    split; [reflexivity | ].
    intros k Hk. apply dict_get_set_other. congruence.
Qed.

End Dictionaries.

Section SetSteps.

Import PunishmentConfig.

Variable json_loads : string -> option json.

(** The handler either writes what its [try] block returned, or leaves the
    configuration as it was and does not answer that steps were updated. *)
Lemma punishment_set_steps_cases (privileged : bool) (args : list string)
    (config_data : dict) :
  (exists validated cfg,
      privileged = true /\ args <> [] /\
      set_steps_body json_loads args config_data = Ok (validated, cfg) /\
      punishment_set_steps json_loads privileged args config_data
      = (cfg, StepsUpdated validated)) \/
  (fst (punishment_set_steps json_loads privileged args config_data)
   = config_data /\
   ~ steps_updated
       (snd (punishment_set_steps json_loads privileged args config_data))).
Proof.
  unfold punishment_set_steps, steps_updated.
  destruct privileged; cbn [negb];
    [ | right; split; [reflexivity | intros [v H]; discriminate H]].
  destruct args as [ | a args];
    [right; split; [reflexivity | intros [v H]; discriminate H] | ].
  destruct (set_steps_body json_loads (a :: args) config_data)
    as [[validated cfg] | e].
  - left. exists validated, cfg. repeat split; congruence.
  - right. destruct e; cbn [fst snd];
      (split; [reflexivity | intros [v H]; discriminate H]).
Qed.

(** What a returning [try] block went through. *)
Lemma set_steps_body_inv (args : list string) (config_data cfg : dict)
    (items validated : list json) :
  json_loads (join_args args) = Some (JArray items) ->
  set_steps_body json_loads args config_data = Ok (validated, cfg) ->
  items <> [] /\
  validate_loop items [] = Ok validated /\
  set_punishment_key config_data "steps" (JArray validated)
    [("enabled", JBool true); ("window_hours", JInt 72);
     ("steps", JArray validated)] = Ok cfg.
Proof.
  intros Hload. unfold set_steps_body. rewrite Hload.
  unfold mbind, result_bind, validate_steps_data.
  destruct items as [ | step items]; [discriminate | ].
  destruct (validate_loop (step :: items) []) as [v | e]; [ | discriminate].
  destruct (set_punishment_key _ _ _ _) as [c | e] eqn:E; [ | discriminate].
  intros H. injection H as <- <-. repeat split; trivial. discriminate.
Qed.

(** The [try] block on a non-empty array of dictionaries without a bad
    element. *)
Lemma set_steps_body_accepts (args : list string) (config_data : dict)
    (items : list json) :
  json_loads (join_args args) = Some (JArray items) ->
  punishment_entry_ok config_data = true ->
  items <> [] -> Forall is_object items ->
  ~ Exists bad_type items -> ~ Exists bad_duration items ->
  exists cfg,
    set_steps_body json_loads args config_data
    = Ok (List.map reduced items, cfg) /\
    stored "steps" cfg = Some (JArray (List.map reduced items)) /\
    (dict_has "punishment" config_data = true ->
     stored "enabled" cfg = stored "enabled" config_data /\
     stored "window_hours" cfg = stored "window_hours" config_data) /\
    (dict_has "punishment" config_data = false ->
     stored "enabled" cfg = Some (JBool true) /\
     stored "window_hours" cfg = Some (JInt 72)) /\
    (forall k, k <> "punishment" -> dict_get k cfg = dict_get k config_data).
Proof.
  intros Hload Hok Hne Hobj Ht Hd.
  unfold set_steps_body. rewrite Hload.
  unfold mbind, result_bind, validate_steps_data.
  destruct items as [ | step items]; [congruence | ].
  destruct (validate_loop_objects (step :: items) [] Hobj)
    as [(-> & _) | [_ Hbad]]; [ | tauto].
  cbn [app].
  destruct (set_punishment_key_ok config_data "steps"
              (JArray (List.map reduced (step :: items)))
              [("enabled", JBool true); ("window_hours", JInt 72);
               ("steps", JArray (List.map reduced (step :: items)))]
              Hok eq_refl)
    as (cfg & -> & Hsteps & Hkeep & Hfresh & Hrest).
  exists cfg. split; [reflexivity | ].
  split; [exact Hsteps | ].
  split; [ | split; [ | exact Hrest]].
  - intros Hhas. split; apply Hkeep; trivial; discriminate.
  - intros Hhas. split; rewrite (Hfresh _ Hhas); reflexivity.
Qed.

(** The [try] block on an array of dictionaries that is empty or holds a
    bad element raises a [ValueError]. *)
Lemma set_steps_body_rejects (args : list string) (config_data : dict)
    (items : list json) :
  json_loads (join_args args) = Some (JArray items) ->
  Forall is_object items ->
  items = [] \/ Exists bad_type items \/ Exists bad_duration items ->
  exists why,
    set_steps_body json_loads args config_data = Raise (ValueError why).
Proof.
  intros Hload Hobj Hbad.
  unfold set_steps_body. rewrite Hload.
  unfold mbind, result_bind, validate_steps_data.
  destruct items as [ | step items]; [eauto | ].
  destruct (validate_loop_objects (step :: items) [] Hobj)
    as [(_ & Ht & Hd) | [[why ->] _]]; [ | eauto].
  destruct Hbad as [H | [H | H]]; [discriminate | tauto | tauto].
Qed.

End SetSteps.

Section SetStepsClaims.

Import PunishmentConfig.

(** X26. [punishment_set_steps] is all or nothing by its own checks.  Let
    the argument parse to the array [items].  If [items] is empty, or an
    element carries a type other than ["warning"] and ["disable"], or an
    element carries a duration that is no [int] instance of Python (the
    JSON integers and, through [isinstance], the booleans) or a negative
    one, the configuration is left exactly as it was and no update is
    announced; for an administrator sending dictionaries the answer is
    the [ValueError] message.  An element that is not a dictionary stops
    the handler as well, with nothing written.  Otherwise (a non-empty
    array of dictionaries with no such element, sent by an administrator)
    the stored steps become exactly the list of the elements reduced to
    type and duration, and the stored [enabled] and [window_hours] stay
    as they were. *)
Theorem set_steps_all_or_nothing
    (json_loads : string -> option json) (privileged : bool)
    (args : list string) (config_data : dict) (items : list json) :
  json_loads (join_args args) = Some (JArray items) ->
  let cfg := fst (punishment_set_steps json_loads privileged args config_data) in
  let answer := snd (punishment_set_steps json_loads privileged args config_data) in
  (items = [] \/ Exists bad_type items \/ Exists bad_duration items ->
   cfg = config_data /\ ~ steps_updated answer /\
   (privileged = true -> args <> [] -> Forall is_object items ->
    exists why, answer = Invalid (ValueError why))) /\
  (~ Forall is_object items -> cfg = config_data /\ ~ steps_updated answer) /\
  (privileged = true -> args <> [] ->
   punishment_entry_ok config_data = true ->
   items <> [] -> Forall is_object items ->
   ~ Exists bad_type items -> ~ Exists bad_duration items ->
   answer = StepsUpdated (List.map reduced items) /\
   stored "steps" cfg = Some (JArray (List.map reduced items)) /\
   (dict_has "punishment" config_data = true ->
    stored "enabled" cfg = stored "enabled" config_data /\
    stored "window_hours" cfg = stored "window_hours" config_data)).
Proof.
  intros Hload. cbn zeta. split; [ | split].
  - intros Hbad.
    assert (Hkeep :
      fst (punishment_set_steps json_loads privileged args config_data)
      = config_data /\
      ~ steps_updated
          (snd (punishment_set_steps json_loads privileged args config_data))).
    { destruct (punishment_set_steps_cases json_loads privileged args config_data)
        as [(validated & cfg & _ & _ & Hbody & _) | H]; [exfalso | exact H].
      destruct (set_steps_body_inv json_loads _ _ _ _ _ Hload Hbody)
        as (Hne & Hloop & _).
      destruct Hbad as [H | H]; [contradiction | ].
      destruct (validate_loop_bad items [] H) as [e He]. congruence. }
    split; [apply Hkeep | split; [apply Hkeep | ]].
    intros -> Hargs Hobj.
    destruct (set_steps_body_rejects json_loads args config_data items
                Hload Hobj Hbad) as [why Hraise].
    exists why. unfold punishment_set_steps. cbn [negb].
    destruct args as [ | a args]; [contradiction | ].
    rewrite Hraise. reflexivity.
  - intros Hnot.
    destruct (punishment_set_steps_cases json_loads privileged args config_data)
      as [(validated & cfg & _ & _ & Hbody & _) | H]; [exfalso | exact H].
    destruct (set_steps_body_inv json_loads _ _ _ _ _ Hload Hbody)
      as (_ & Hloop & _).
    apply Hnot. eapply validate_loop_returns_objects. exact Hloop.
  - intros -> Hargs Hok Hne Hobj Ht Hd.
    destruct (set_steps_body_accepts json_loads args config_data items
                Hload Hok Hne Hobj Ht Hd)
      as (cfg & Hbody & Hsteps & Hkeep & _).
    unfold punishment_set_steps. cbn [negb].
    destruct args as [ | a args]; [contradiction | ].
    rewrite Hbody. cbn [fst snd]. repeat split; trivial; now apply Hkeep.
Qed.

(** C10. On a non-empty array of dictionaries sent by an administrator,
    [punishment_set_steps] either stores every element reduced to its type
    and duration, an absent ["type"] read as ["disable"] and an absent
    ["duration"] as [0], and then no element carries a type outside
    ["warning"], ["disable"] or a duration that is not a non-negative
    integer; or it answers with the [ValueError] message, leaves the
    configuration alone, and some element does carry such a type or such a
    duration. *)
Theorem set_steps_missing_keys_default
    (json_loads : string -> option json) (args : list string)
    (config_data : dict) (items : list json) :
  json_loads (join_args args) = Some (JArray items) ->
  args <> [] ->
  punishment_entry_ok config_data = true ->
  items <> [] -> Forall is_object items ->
  let cfg := fst (punishment_set_steps json_loads true args config_data) in
  let answer := snd (punishment_set_steps json_loads true args config_data) in
  (answer = StepsUpdated (List.map reduced items) /\
   stored "steps" cfg = Some (JArray (List.map reduced items)) /\
   ~ Exists bad_type items /\ ~ Exists bad_duration items) \/
  ((exists why, answer = Invalid (ValueError why)) /\
   cfg = config_data /\
   (Exists bad_type items \/ Exists bad_duration items)).
Proof.
  intros Hload Hargs Hok Hne Hobj. cbn zeta.
  destruct args as [ | a args]; [contradiction | ].
  destruct (validate_loop_objects items [] Hobj)
    as [(_ & Ht & Hd) | [_ Hbad]].
  - left.
    destruct (set_steps_body_accepts json_loads (a :: args) config_data items
                Hload Hok Hne Hobj Ht Hd)
      as (cfg & Hbody & Hsteps & _).
    unfold punishment_set_steps. cbn [negb]. rewrite Hbody. cbn [fst snd].
    repeat split; trivial.
  - right.
    destruct (set_steps_body_rejects json_loads (a :: args) config_data items
                Hload Hobj (or_intror Hbad)) as [why Hraise].
    unfold punishment_set_steps. cbn [negb]. rewrite Hraise. cbn [fst snd].
    repeat split; eauto.
Qed.

End SetStepsClaims.

Section SetStepsExamples.

Import PunishmentConfig.

Lemma set_steps_all_or_nothing_witness :
  let before := [("interval", JInt 60);
                 ("punishment",
                  JObject [("enabled", JBool false); ("window_hours", JInt 24);
                           ("steps", JArray [])])] in
  let good := [JObject [("type", JString "warning"); ("duration", JInt 0);
                        ("note", JString "first")];
               JObject [("type", JString "disable"); ("duration", JInt 15)]] in
  let bad := [JObject [("type", JString "warning"); ("duration", JInt 0)];
              JObject [("type", JString "disable"); ("duration", JInt (-5))]] in
  (stored "steps"
     (fst (punishment_set_steps (fun _ => Some (JArray good)) true ["steps"] before))
   = Some (JArray [JObject [("type", JString "warning"); ("duration", JInt 0)];
                   JObject [("type", JString "disable"); ("duration", JInt 15)]]) /\
   stored "enabled"
     (fst (punishment_set_steps (fun _ => Some (JArray good)) true ["steps"] before))
   = Some (JBool false)) /\
  fst (punishment_set_steps (fun _ => Some (JArray bad)) true ["steps"] before)
  = before.
Proof.
  cbn zeta. split.
  - match goal with
    | |- context [punishment_set_steps ?loads true ?args ?cfg] =>
        match goal with
        | |- context [Some (JArray (?a :: ?l))] =>
            destruct (proj2 (proj2 (set_steps_all_or_nothing loads true args cfg
                               (a :: l) eq_refl)))
              as (_ & Hsteps & Hkeep)
        end
    end;
      [reflexivity | discriminate | reflexivity | discriminate
      | all_objects | no_bad_element | no_bad_element | ].
    split; [exact Hsteps | ].
    destruct (Hkeep eq_refl) as [Henabled _]. exact Henabled.
  - match goal with
    | |- fst (punishment_set_steps ?loads true ?args ?cfg) = _ =>
        refine (proj1 (proj1 (set_steps_all_or_nothing loads true args cfg
                                _ eq_refl) _))
    end.
    right; right. apply Exists_cons_tl, Exists_cons_hd.
    eexists _, _. split; [reflexivity | split; [reflexivity | ]].
    intros (z & Hz & Hpos). cbn in Hz. injection Hz as <-. lia.
Defined.

Lemma set_steps_missing_keys_default_witness :
  let before := [("punishment",
                  JObject [("enabled", JBool true); ("window_hours", JInt 72);
                           ("steps", JArray [])])] in
  let items := [JObject [("duration", JInt 30)];
                JObject [("type", JString "warning")];
                JObject []] in
  stored "steps"
    (fst (punishment_set_steps (fun _ => Some (JArray items)) true ["steps"] before))
  = Some (JArray [JObject [("type", JString "disable"); ("duration", JInt 30)];
                  JObject [("type", JString "warning"); ("duration", JInt 0)];
                  JObject [("type", JString "disable"); ("duration", JInt 0)]]).
Proof.
  cbn zeta.
  match goal with
  | |- context [punishment_set_steps ?loads true ?args ?cfg] =>
      match goal with
      | |- context [Some (JArray (?a :: ?l))] =>
          destruct (set_steps_missing_keys_default loads args cfg (a :: l)
                      eq_refl)
            as [(_ & Hsteps & _) | (_ & _ & Hbad)]
      end
  end; [discriminate | reflexivity | discriminate | all_objects | | ].
  - exact Hsteps.
  - exfalso. destruct Hbad as [H | H]; revert H; no_bad_element.
Defined.

End SetStepsExamples.

Section SetWindow.

Import PunishmentConfig.

(** C6 (amended). Let the first argument of [punishment_set_window] read
    as the integer [h].  For an administrator and [1 <= h <= 720] the
    command stores [window_hours = h], keeping the stored steps and the
    enabled flag of an existing entry.  For [h < 1] and for [h > 720] the
    configuration is left as it was, and an administrator is told that the
    value is out of range. *)
Theorem set_window_between_1_and_720
    (int_of_str : string -> option Z) (privileged : bool)
    (arg : string) (rest : list string) (config_data : dict) (h : Z) :
  int_of_str arg = Some h ->
  let cfg :=
    fst (punishment_set_window int_of_str privileged (arg :: rest) config_data) in
  let answer :=
    snd (punishment_set_window int_of_str privileged (arg :: rest) config_data) in
  (privileged = true -> punishment_entry_ok config_data = true ->
   1 <= h <= 720 ->
   answer = WindowUpdated h /\
   stored "window_hours" cfg = Some (JInt h) /\
   (dict_has "punishment" config_data = true ->
    stored "steps" cfg = stored "steps" config_data /\
    stored "enabled" cfg = stored "enabled" config_data)) /\
  (h < 1 \/ 720 < h ->
   cfg = config_data /\ answer <> WindowUpdated h /\
   (privileged = true -> answer = OutOfRange)).
Proof.
  intros Hint. cbn zeta.
  unfold punishment_set_window, set_window_body. rewrite Hint.
  unfold mbind, result_bind. split.
  - intros -> Hok Hrange. cbn [negb].
    replace ((h <? 1) || (h >? 720)) with false
      by (symmetry; apply orb_false_iff; lia).
    destruct (set_punishment_key_ok config_data "window_hours" (JInt h)
                [("enabled", JBool true); ("window_hours", JInt h);
                 ("steps", JArray [])] Hok eq_refl)
      as (cfg & -> & Hwin & Hkeep & _).
    cbn [fst snd]. split; [reflexivity | split; [exact Hwin | ]].
    intros Hhas. split; apply Hkeep; trivial; discriminate.
  - intros Hout.
    replace ((h <? 1) || (h >? 720)) with true
      by (symmetry; apply orb_true_iff; lia).
    destruct privileged; cbn [negb fst snd];
      repeat split; try discriminate; trivial.
Qed.

Lemma set_window_between_1_and_720_witness :
  let before := [("punishment",
                  JObject [("enabled", JBool true); ("window_hours", JInt 72);
                           ("steps", JArray [JObject [("type", JString "warning");
                                                      ("duration", JInt 0)]])])] in
  (stored "window_hours"
     (fst (punishment_set_window (fun _ => Some 720) true ["720"] before))
   = Some (JInt 720) /\
   stored "steps"
     (fst (punishment_set_window (fun _ => Some 720) true ["720"] before))
   = stored "steps" before) /\
  fst (punishment_set_window (fun _ => Some 0) true ["0"] before) = before.
Proof.
  cbn zeta. split.
  - match goal with
    | |- context [punishment_set_window ?f true (?a :: ?r) ?cfg] =>
        destruct (proj1 (set_window_between_1_and_720 f true a r cfg 720 eq_refl))
          as (_ & Hwin & Hkeep)
    end; [reflexivity | reflexivity | lia | ].
    split; [exact Hwin | ].
    destruct (Hkeep eq_refl) as [Hsteps _]. exact Hsteps.
  - match goal with
    | |- fst (punishment_set_window ?f true (?a :: ?r) ?cfg) = _ =>
        refine (proj1 (proj2 (set_window_between_1_and_720 f true a r cfg 0
                                eq_refl) _))
    end.
    left. lia.
Defined.

(** C6 as stated fails: an administrator sending 721 is answered that
    the value is out of range, and nothing is stored. *)
Lemma set_window_rejects_721 :
  ~ (forall h : Z, 1 <= h ->
       stored "window_hours"
         (fst (punishment_set_window (fun _ => Some h) true ["hours"] []))
       = Some (JInt h)) /\
  punishment_set_window (fun _ => Some 721) true ["hours"] [] = ([], OutOfRange).
Proof.
  split; [ | reflexivity].
  intros H. specialize (H 721 ltac:(lia)). discriminate H.
Qed.

End SetWindow.

(** ** Escalation *)

Section Escalation.

Import PunishmentPolicy.

Lemma step_index_range (steps : list PunishmentStep) (n : Z) :
  steps <> [] ->
  0 <= step_index steps n <= Z.of_nat (List.length steps) - 1.
Proof.
  intros Hne. unfold step_index, clamp.
  destruct steps; [contradiction | cbn [List.length]]. lia.
Qed.

Lemma nth_error_last (steps : list PunishmentStep) (d : PunishmentStep) :
  steps <> [] ->
  nth_error steps (List.length steps - 1) = Some (List.last steps d).
Proof.
  induction steps as [ | s steps IH]; [contradiction | intros _].
  destruct steps as [ | s' steps]; [reflexivity | ].
  cbn [List.length] in *. rewrite Nat.sub_succ, Nat.sub_0_r.
  cbn [nth_error]. rewrite Nat.sub_succ, Nat.sub_0_r in IH.
  rewrite IH by discriminate. reflexivity.
Qed.

(** C3. For a non-empty sequence of steps and [n >= 0],
    [step_for_count(n)] is the step at index [min(n, len(steps) - 1)] and
    always exists; it is the first step for [n = 0]; the escalation level
    it reads does not decrease when [n] grows; and from
    [n = len(steps) - 1] on it is the last step. *)
Theorem step_for_count_saturates (steps : list PunishmentStep) (n : Z) :
  steps <> [] -> 0 <= n ->
  step_for_count steps n
  = nth_error steps (Z.to_nat (Z.min n (Z.of_nat (List.length steps) - 1))) /\
  (exists s, step_for_count steps n = Some s) /\
  step_for_count steps 0 = hd_error steps /\
  (forall m, n <= m -> step_index steps n <= step_index steps m) /\
  (forall d, Z.of_nat (List.length steps) - 1 <= n ->
             step_for_count steps n = Some (List.last steps d)).
Proof.
  intros Hne Hn.
  pose proof (step_index_range steps n Hne) as Hrange.
  assert (Hidx : step_index steps n
                 = Z.min n (Z.of_nat (List.length steps) - 1)).
  { unfold step_index, clamp in *. lia. }
  split; [unfold step_for_count; now rewrite Hidx | ].
  split; [ | split; [ | split]].
  - unfold step_for_count.
    destruct (nth_error steps (Z.to_nat (step_index steps n))) as [s | ] eqn:E;
      [eauto | ].
    apply nth_error_None in E. lia.
  - unfold step_for_count.
    replace (step_index steps 0) with 0
      by (unfold step_index, clamp in *; lia).
    destruct steps; [contradiction | reflexivity].
  - intros m Hm. unfold step_index, clamp. lia.
  - intros d Hlast. unfold step_for_count. rewrite Hidx.
    rewrite Z.min_r by exact Hlast.
    replace (Z.to_nat (Z.of_nat (List.length steps) - 1))
      with (List.length steps - 1)%nat by lia.
    now apply nth_error_last.
Qed.

Lemma step_for_count_saturates_witness :
  step_for_count default_steps 2 = Some (mkStep disable 60) /\
  step_for_count default_steps 7 = Some (mkStep disable 0).
Proof.
  assert (Hne : default_steps <> []) by discriminate.
  split.
  - rewrite (proj1 (step_for_count_saturates default_steps 2 Hne ltac:(lia))).
    reflexivity.
  - rewrite (proj1 (step_for_count_saturates default_steps 7 Hne ltac:(lia))).
    reflexivity.
Defined.

End Escalation.

(** ** Monitoring *)

Section MonitoringClaims.

Import Monitoring.

(** C7. For a warning created at [t] with a monitoring duration of [d]
    seconds, [is_monitoring_active] at the clock reading [now] is true
    exactly while [now - t < d] and false exactly once [now - t >= d]; it
    reads the clock and the two fields only, so recording a snapshot does
    not change it.  With [d = 240] it is true at [t + 100] and false at
    [t + 241]. *)
Theorem is_monitoring_active_derived
    (t now : Q) (u : string) (observed d : Z) :
  let w := create_warning t u observed d in
  (is_monitoring_active now w = true <-> (now - t < inject_Z d)%Q) /\
  (is_monitoring_active now w = false <-> (inject_Z d <= now - t)%Q) /\
  (forall at_time ip_set,
      is_monitoring_active now (record_snapshot at_time ip_set w)
      = is_monitoring_active now w) /\
  is_monitoring_active (t + 100) (create_warning t u observed 240) = true /\
  is_monitoring_active (t + 241) (create_warning t u observed 240) = false.
Proof.
  cbn zeta. unfold is_monitoring_active, create_warning.
  cbn [monitoring_duration created_at record_snapshot].
  assert (Hfalse : forall x y : Q,
             negb (Qle_bool x y) = false <-> (x <= y)%Q).
  { intros x y. rewrite negb_false_iff. apply Qle_bool_iff. }
  assert (Htrue : forall x y : Q,
             negb (Qle_bool x y) = true <-> (y < x)%Q).
  { intros x y. rewrite negb_true_iff, <- not_true_iff_false, Qle_bool_iff.
    split; [apply Qnot_le_lt | apply Qlt_not_le]. }
  split; [apply Htrue | ].
  split; [apply Hfalse | ].
  split; [reflexivity | ].
  split.
  - apply Htrue. change (inject_Z 240) with 240%Q. lra.
  - apply Hfalse. change (inject_Z 240) with 240%Q. lra.
Qed.

(** C8. For a username the registry does not know, and for one whose
    warning has no snapshot, [analyze_user_activity_patterns] returns the
    analysis with zero snapshots, peak 0, average 0, change frequency 0
    and no consistently active address. *)
Theorem analysis_of_no_snapshots
    (warnings : gmap string MonitoringWarning) (u : string) :
  warnings !! u = None \/
  (exists w, warnings !! u = Some w /\ snapshots w = []) ->
  analyze_user_activity_patterns warnings u
  = {| total_snapshots := 0; peak_ip_count := 0; average_ip_count := 0;
       ip_change_frequency := 0; consistently_active_ips := ∅ |}.
Proof.
  unfold analyze_user_activity_patterns.
  assert (Hempty : analyze []
            = {| total_snapshots := 0; peak_ip_count := 0;
                 average_ip_count := 0; ip_change_frequency := 0;
                 consistently_active_ips := ∅ |}).
  { unfold analyze. cbn [all_ips fold_right]. rewrite elements_empty.
    reflexivity. }
  intros [-> | (w & -> & ->)]; exact Hempty.
Qed.

Lemma analysis_of_no_snapshots_witness :
  total_snapshots (analyze_user_activity_patterns ∅ "alice") = 0 /\
  consistently_active_ips
    (analyze_user_activity_patterns
       {[ "bob" := create_warning 1000 "bob" 3 240 ]} "bob") = ∅.
Proof.
  split.
  - rewrite (analysis_of_no_snapshots ∅ "alice" (or_introl (lookup_empty _))).
    reflexivity.
  - rewrite (analysis_of_no_snapshots
               {[ "bob" := create_warning 1000 "bob" 3 240 ]} "bob"
               (or_intror
                  (ex_intro _ (create_warning 1000 "bob" 3 240)
                     (conj (lookup_singleton_eq _ _) eq_refl)))).
    reflexivity.
Defined.

End MonitoringClaims.

(** ** The code on small inputs *)

Section Runs.

Import ViolationStore PunishmentConfig PunishmentPolicy Monitoring.

(** A violation added at 1000 is counted one hour later to the second, and
    not one second after that. *)
Example count_at_the_boundary :
  let db := snd (add 1000 [] "alice" 0 0 (Some 3) None) in
  get_violation_count 4600 db "alice" 1 = 1 /\
  get_violation_count 4601 db "alice" 1 = 0 /\
  get_violation_count 4600 db "bob" 1 = 0.
Proof. repeat split. Qed.

Example clear_user_counts_rows :
  clear_user
    [mkViolation 1 "alice" 10 0 0 None None;
     mkViolation 2 "bob" 20 1 15 None None;
     mkViolation 3 "alice" 30 1 15 None None] "alice"
  = (2, [mkViolation 2 "bob" 20 1 15 None None]).
Proof. reflexivity. Qed.

Example listing_is_newest_first :
  List.map id
    (get_user_violations 50
       [mkViolation 1 "alice" 10 0 0 None None;
        mkViolation 2 "alice" 30 1 15 None None;
        mkViolation 3 "bob" 25 0 0 None None;
        mkViolation 4 "alice" 20 2 60 None None] "alice" 1)
  = [2; 4; 1].
Proof. reflexivity. Qed.

(** [True] and [False] are [int] instances: the duration check lets them
    through and they are stored as they came. *)
Example boolean_duration_passes_isinstance :
  punishment_set_steps
    (fun _ => Some (JArray [JObject [("type", JString "disable");
                                     ("duration", JBool true)]]))
    true ["steps"] []
  = ([("punishment",
       JObject [("enabled", JBool true); ("window_hours", JInt 72);
                ("steps", JArray [JObject [("type", JString "disable");
                                           ("duration", JBool true)]])])],
     StepsUpdated [JObject [("type", JString "disable");
                            ("duration", JBool true)]]).
Proof. reflexivity. Qed.

(** A number with a fraction is no [int], even when it is whole. *)
Example float_duration_is_rejected :
  punishment_set_steps
    (fun _ => Some (JArray [JObject [("type", JString "disable");
                                     ("duration", JFloat 15)]]))
    true ["steps"] []
  = ([], Invalid (ValueError (InvalidDuration (JFloat 15)))).
Proof. reflexivity. Qed.

(** An element without [get] ends the handler with an [AttributeError] the
    handler does not catch. *)
Example element_that_is_no_dictionary :
  punishment_set_steps (fun _ => Some (JArray [JInt 5])) true ["steps"] []
  = ([], Uncaught AttributeError).
Proof. reflexivity. Qed.

Example text_that_is_no_json :
  punishment_set_steps (fun _ => None) true ["steps"] []
  = ([], Invalid JSONDecodeError).
Proof. reflexivity. Qed.

Example window_of_720_hours_is_stored :
  punishment_set_window (fun _ => Some 720) true ["720"] []
  = ([("punishment",
       JObject [("enabled", JBool true); ("window_hours", JInt 720);
                ("steps", JArray [])])],
     WindowUpdated 720).
Proof. reflexivity. Qed.

Example window_that_is_no_number :
  punishment_set_window (fun _ => None) true ["soon"] [] = ([], Usage).
Proof. reflexivity. Qed.

Example escalation_through_the_default_steps :
  List.map (step_for_count default_steps) [0; 1; 2; 3; 4; 100]
  = List.map Some
      [mkStep warning 0; mkStep disable 15; mkStep disable 60;
       mkStep disable 0; mkStep disable 0; mkStep disable 0].
Proof. reflexivity. Qed.

Example monitoring_expires_at_the_duration :
  let w := create_warning 1000 "alice" 3 240 in
  is_monitoring_active 1100 w = true /\
  is_monitoring_active 1239 w = true /\
  is_monitoring_active 1240 w = false /\
  is_monitoring_active 1241 w = false.
Proof. repeat split. Qed.

Example analysis_of_three_snapshots :
  let snaps := [mkSnapshot 0 2 {[ "10.0.0.1"; "10.0.0.2" ]};
                mkSnapshot 120 1 {[ "10.0.0.1" ]};
                mkSnapshot 240 2 {[ "10.0.0.1"; "10.0.0.3" ]}] in
  let a := analyze_user_activity_patterns
             {[ "alice" := mkWarning "alice" 0 240 2 snaps ]} "alice" in
  total_snapshots a = 3 /\ peak_ip_count a = 2 /\
  (average_ip_count a == 5 # 3)%Q /\ (ip_change_frequency a == 1)%Q /\
  consistently_active_ips a = {[ "10.0.0.1" ]}.
Proof. vm_compute. repeat split. Qed.

End Runs.

(** * Further properties of the code *)

(** ** The violation table: counting, listing and retention *)

Section Retention.

Import ViolationStore.

(** X1. The listing and the count of one user and window, taken at the
    same clock reading, agree: the list has as many rows as the count
    says. *)
Theorem listing_length_is_count (now : Q) (db : table) (u : string) (w : Z) :
  Z.of_nat (List.length (get_user_violations now db u w))
  = get_violation_count now db u w.
Proof.
  unfold get_user_violations, get_violation_count.
  now rewrite (Permutation_length (order_by_timestamp_desc_perm _)).
Qed.

Lemma filter_length_le {A : Type} (f g : A -> bool) (l : list A) :
  (forall x, f x = true -> g x = true) ->
  (List.length (List.filter f l) <= List.length (List.filter g l))%nat.
Proof.
  intros Hfg. induction l as [ | x l IH]; [reflexivity | ].
  cbn [List.filter]. destruct (f x) eqn:F.
  - rewrite (Hfg x F). cbn [List.length]. lia.
  - destruct (g x); cbn [List.length]; lia.
Qed.

(** X2. Violations are forgotten, never brought back: a later clock
    reading and a shorter window can only lower the count of a user on the
    same table. *)
Theorem count_shrinks_with_time_and_window
    (now1 now2 : Q) (db : table) (u : string) (w1 w2 : Z) :
  (now1 <= now2)%Q -> w2 <= w1 ->
  get_violation_count now2 db u w2 <= get_violation_count now1 db u w1.
Proof.
  intros Hnow Hw. unfold get_violation_count, selected.
  apply inj_le, filter_length_le.
  intros r Hr. apply in_window_spec in Hr. apply in_window_spec.
  destruct Hr as [Hu Ht]. split; [exact Hu | ].
  assert (Hq : (inject_Z w2 <= inject_Z w1)%Q) by now rewrite <- Zle_Qle.
  nra.
Qed.

Lemma count_shrinks_with_time_and_window_witness :
  get_violation_count 5000
    [mkViolation 1 "alice" 1000 0 0 None None;
     mkViolation 2 "alice" 4000 1 15 None None] "alice" 1
  <= get_violation_count 4000
       [mkViolation 1 "alice" 1000 0 0 None None;
        mkViolation 2 "alice" 4000 1 15 None None] "alice" 2.
Proof.
  apply count_shrinks_with_time_and_window; [ | lia].
  unfold Qle; cbn; lia.
Defined.

(** The age test of [cleanup_old], read as the age of the row. *)
Lemma kept_by_cleanup (now : Q) (days : Z) (r : ViolationHistory) :
  Qle_bool (now - inject_Z (days * 24 * 3600)) (timestamp r) = true <->
  (now - timestamp r <= inject_Z days * 86400)%Q.
Proof.
  rewrite Qle_bool_iff.
  replace (days * 24 * 3600) with (days * 86400) by lia.
  rewrite inject_Z_mult. change (inject_Z 86400) with 86400%Q.
  split; intros H; lra.
Qed.

(** X3. [cleanup_old(days)] deletes exactly the rows older than
    [days * 86400] seconds (a row of exactly that age stays), leaves the
    others in their order, and returns the number of rows it deleted. *)
Theorem cleanup_old_removes_the_old (now : Q) (db : table) (days : Z) :
  let n := fst (cleanup_old now db days) in
  let db' := snd (cleanup_old now db days) in
  (forall r, In r db' <->
     In r db /\ (now - timestamp r <= inject_Z days * 86400)%Q) /\
  n + Z.of_nat (List.length db') = Z.of_nat (List.length db) /\
  (n = 0 <-> db' = db).
Proof.
  cbn zeta. unfold cleanup_old; cbn [fst snd].
  set (limit := (now - inject_Z (days * 24 * 3600))%Q).
  set (keep := fun r => negb (negb (Qle_bool limit (timestamp r)))).
  set (old := fun r => negb (Qle_bool limit (timestamp r))).
  assert (Hlen : forall l : table,
             (List.length (List.filter old l) + List.length (List.filter keep l)
              = List.length l)%nat).
  { induction l as [ | r l IH]; [reflexivity | ].
    cbn [List.filter]. unfold keep at 1, old at 1.
    destruct (Qle_bool limit (timestamp r)); cbn [negb List.length]; lia. }
  split; [ | split].
  - intros r. rewrite filter_In. unfold keep. rewrite negb_involutive.
    unfold limit. now rewrite kept_by_cleanup.
  - specialize (Hlen db). lia.
  - split.
    + intros H0. specialize (Hlen db).
      assert (Hfull : List.length (List.filter keep db) = List.length db) by lia.
      clear Hlen H0. induction db as [ | r db IH]; [reflexivity | ].
      cbn [List.filter] in *. destruct (keep r).
      * f_equal. apply IH. cbn [List.length] in Hfull. lia.
      * pose proof (filter_length_le keep (fun _ => true) db (fun _ _ => eq_refl))
          as Hle.
        rewrite (forallb_filter_id (fun _ => true) db) in Hle
          by (now apply forallb_forall).
        cbn [List.length] in Hfull. lia.
    + intros Heq. specialize (Hlen db). rewrite Heq in Hlen. lia.
Qed.

Lemma filter_filter_implied {A : Type} (f g : A -> bool) (l : list A) :
  (forall x, In x l -> f x = true -> g x = true) ->
  List.filter f (List.filter g l) = List.filter f l.
Proof.
  intros Hfg. induction l as [ | x l IH]; [reflexivity | ].
  cbn [List.filter].
  assert (IH' : List.filter f (List.filter g l) = List.filter f l)
    by (apply IH; intros y Hy; apply Hfg; now right).
  destruct (g x) eqn:G; cbn [List.filter].
  - now rewrite IH'.
  - destruct (f x) eqn:F; [ | exact IH'].
    rewrite (Hfg x (or_introl eq_refl) F) in G. discriminate G.
Qed.

(** X4. Retention does not disturb escalation: after [cleanup_old(days)]
    run at [t0], every count and listing taken at [t0] or later with a
    window of at most [24 * days] hours is what it would have been without
    the cleanup. *)
Theorem cleanup_old_keeps_windowed_queries
    (t0 now : Q) (db : table) (days : Z) (u : string) (w : Z) :
  (t0 <= now)%Q -> w <= 24 * days ->
  get_violation_count now (snd (cleanup_old t0 db days)) u w
  = get_violation_count now db u w /\
  get_user_violations now (snd (cleanup_old t0 db days)) u w
  = get_user_violations now db u w.
Proof.
  intros Ht Hw.
  assert (Hsel : selected now (snd (cleanup_old t0 db days)) u w
                 = selected now db u w).
  { unfold selected, cleanup_old; cbn [snd].
    apply filter_filter_implied. intros r _ Hr.
    rewrite negb_involutive. apply kept_by_cleanup.
    apply in_window_spec in Hr. destruct Hr as [_ Hr].
    assert (Hq : (inject_Z w <= inject_Z (24 * days))%Q) by now rewrite <- Zle_Qle.
    rewrite inject_Z_mult in Hq. change (inject_Z 24) with 24%Q in Hq.
    nra. }
  unfold get_violation_count, get_user_violations. now rewrite Hsel.
Qed.

Lemma cleanup_old_keeps_windowed_queries_witness :
  get_violation_count 200000
    (snd (cleanup_old 190000
            [mkViolation 1 "alice" 1000 0 0 None None;
             mkViolation 2 "alice" 150000 1 15 None None] 1)) "alice" 24
  = get_violation_count 200000
      [mkViolation 1 "alice" 1000 0 0 None None;
       mkViolation 2 "alice" 150000 1 15 None None] "alice" 24.
Proof.
  apply cleanup_old_keeps_windowed_queries; [ | lia].
  unfold Qle; cbn; lia.
Defined.

(** X5. Cleaning up twice is cleaning up once at the later time: a cleanup
    at [t0] followed by one at [t1 >= t0] with the same retention leaves
    the table of a single cleanup at [t1]; at the same time the second run
    deletes nothing. *)
Theorem cleanup_old_twice
    (t0 t1 : Q) (db : table) (days : Z) :
  (t0 <= t1)%Q ->
  snd (cleanup_old t1 (snd (cleanup_old t0 db days)) days)
  = snd (cleanup_old t1 db days) /\
  cleanup_old t0 (snd (cleanup_old t0 db days)) days
  = (0, snd (cleanup_old t0 db days)).
Proof.
  intros Ht. split.
  - unfold cleanup_old; cbn [snd]. apply filter_filter_implied.
    intros r _. rewrite !negb_involutive, !Qle_bool_iff. intros H. lra.
  - pose proof (cleanup_old_removes_the_old t0 (snd (cleanup_old t0 db days)) days)
      as (_ & Hlen & Hzero).
    cbn zeta in Hlen, Hzero.
    assert (Hsame : snd (cleanup_old t0 (snd (cleanup_old t0 db days)) days)
                    = snd (cleanup_old t0 db days)).
    { unfold cleanup_old; cbn [snd]. apply filter_filter_implied.
      intros r _ H. exact H. }
    apply Hzero in Hsame.
    rewrite (surjective_pairing (cleanup_old t0 (snd (cleanup_old t0 db days)) days)).
    rewrite Hsame. f_equal. now apply Hzero.
Qed.

Lemma cleanup_old_twice_witness :
  snd (cleanup_old 200000
         (snd (cleanup_old 100000
                 [mkViolation 1 "alice" 1000 0 0 None None;
                  mkViolation 2 "bob" 150000 1 15 None None] 1)) 1)
  = [mkViolation 2 "bob" 150000 1 15 None None].
Proof.
  rewrite (proj1 (cleanup_old_twice 100000 200000
                    [mkViolation 1 "alice" 1000 0 0 None None;
                     mkViolation 2 "bob" 150000 1 15 None None] 1
                    ltac:(unfold Qle; cbn; lia))).
  reflexivity.
Defined.

(** X6. Clearing a user a second time deletes nothing and changes
    nothing, and clearing two users gives the same table in either
    order. *)
Theorem clear_user_again_and_in_any_order (db : table) (u v : string) :
  clear_user (snd (clear_user db u)) u = (0, snd (clear_user db u)) /\
  snd (clear_user (snd (clear_user db u)) v)
  = snd (clear_user (snd (clear_user db v)) u).
Proof.
  split.
  - unfold clear_user at 1. fold (rows_of (snd (clear_user db u)) u).
    rewrite rows_of_after_clear. cbn [List.length]. f_equal.
    unfold clear_user; cbn [snd]. apply filter_filter_implied.
    intros r _ H. exact H.
  - unfold clear_user; cbn [snd].
    induction db as [ | r db IH]; [reflexivity | ].
    cbn [List.filter].
    destruct (String.eqb (username r) u) eqn:Eu;
      destruct (String.eqb (username r) v) eqn:Ev;
      cbn [negb List.filter]; rewrite ?Eu, ?Ev; cbn [negb];
      rewrite ?IH; reflexivity.
Qed.

(** X7. Recording a violation of [u] leaves every count and listing of
    another user [v] as it was. *)
Theorem add_leaves_other_users_alone
    (T now : Q) (db : table) (u v : string) (step duration w : Z)
    (count : option Z) (addresses : option (list string)) :
  u <> v ->
  let db' := snd (add T db u step duration count addresses) in
  get_violation_count now db' v w = get_violation_count now db v w /\
  get_user_violations now db' v w = get_user_violations now db v w.
Proof.
  intros Huv. cbn zeta.
  assert (Hsel : selected now (snd (add T db u step duration count addresses)) v w
                 = selected now db v w).
  { unfold add; cbn [snd]. rewrite selected_app.
    unfold selected at 2. cbn [List.filter]. unfold in_window at 1.
    cbn [username]. apply String.eqb_neq in Huv. rewrite Huv.
    cbn [andb]. apply app_nil_r. }
  unfold get_violation_count, get_user_violations. now rewrite Hsel.
Qed.

Lemma add_leaves_other_users_alone_witness :
  get_violation_count 2000
    (snd (add 2000 [mkViolation 1 "bob" 1000 0 0 None None] "alice" 0 0 None None))
    "bob" 1
  = get_violation_count 2000 [mkViolation 1 "bob" 1000 0 0 None None] "bob" 1.
Proof.
  refine (proj1 (add_leaves_other_users_alone 2000 2000
                   [mkViolation 1 "bob" 1000 0 0 None None] "alice" "bob"
                   0 0 1 None None _)).
  discriminate.
Defined.

(** X8. A violation recorded and then cleared is gone: [clear_user(u)]
    after an [add] for [u] deletes one row more than before the [add] and
    leaves the table that clearing alone leaves. *)
Theorem clear_user_after_add
    (T : Q) (db : table) (u : string) (step duration : Z)
    (count : option Z) (addresses : option (list string)) :
  let db' := snd (add T db u step duration count addresses) in
  clear_user db' u = (fst (clear_user db u) + 1, snd (clear_user db u)).
Proof.
  cbn zeta. unfold add, clear_user; cbn [fst snd].
  rewrite !filter_app. cbn [List.filter username].
  rewrite String.eqb_refl. cbn [negb].
  rewrite length_app, app_nil_r. cbn [List.length]. f_equal. lia.
Qed.

End Retention.

(** ** Dictionaries, once more *)

Section DictionaryFacts.

Import PunishmentConfig.

Lemma dict_get_set (k k' : string) (v : json) (d : dict) :
  dict_get k' (dict_set k v d) = if String.eqb k k' then Some v else dict_get k' d.
Proof.
  destruct (String.eqb_spec k k') as [<- | Hne].
  - apply dict_get_set_same.
  - now apply dict_get_set_other.
Qed.

Lemma dict_set_set (k : string) (v v' : json) (d : dict) :
  dict_set k v (dict_set k v' d) = dict_set k v d.
Proof.
  induction d as [ | [k0 v0] d IH]; cbn [dict_set].
  - now rewrite String.eqb_refl.
  - destruct (String.eqb k0 k) eqn:E; cbn [dict_set].
    + now rewrite String.eqb_refl.
    + now rewrite E, IH.
Qed.

Lemma dict_set_get_id (k : string) (v : json) (d : dict) :
  dict_get k d = Some v -> dict_set k v d = d.
Proof.
  induction d as [ | [k0 v0] d IH]; cbn [dict_get dict_set]; [discriminate | ].
  destruct (String.eqb_spec k0 k) as [-> | Hne].
  - intros H. injection H as ->. reflexivity.
  - intros H. now rewrite IH.
Qed.

Lemma dict_has_set (k : string) (v : json) (d : dict) :
  dict_has k (dict_set k v d) = true.
Proof. unfold dict_has. now rewrite dict_get_set_same. Qed.

(** The outcome of writing one key of the ["punishment"] entry, as
    lookups. *)
Lemma set_punishment_key_lookups (config_data : dict) (key : string)
    (value : json) (fresh : dict) :
  punishment_entry_ok config_data = true ->
  dict_get key fresh = Some value ->
  exists cfg,
    set_punishment_key config_data key value fresh = Ok cfg /\
    punishment_entry_ok cfg = true /\
    dict_has "punishment" cfg = true /\
    (forall k, stored k cfg
               = if String.eqb key k then Some value
                 else if dict_has "punishment" config_data
                      then stored k config_data else dict_get k fresh) /\
    (forall k, k <> "punishment" -> dict_get k cfg = dict_get k config_data).
Proof.
  unfold punishment_entry_ok, set_punishment_key, stored, dict_has.
  intros Hok Hfresh.
  destruct (dict_get "punishment" config_data) as [[ | | | | | | p] | ] eqn:E;
    try discriminate Hok; eexists; (split; [reflexivity | ]);
    rewrite dict_get_set_same; (split; [reflexivity | ]);
    (split; [reflexivity | ]).
  - split; [intros k; apply dict_get_set | ].
    intros k Hk. apply dict_get_set_other. congruence.
  - split.
    + intros k. destruct (String.eqb_spec key k) as [<- | Hne]; trivial.
    + intros k Hk. apply dict_get_set_other. congruence.
Qed.

End DictionaryFacts.

(** ** Toggling, and the buttons of the punishment menu *)

Section Toggles.

Import PunishmentConfig ConfigCommands.

Lemma toggle_body_present (entry : string) (fresh : dict) (default : json)
    (config_data p : dict) :
  dict_get entry config_data = Some (JObject p) ->
  toggle_body entry fresh default config_data
  = let b := negb (truthy (match dict_get "enabled" p with
                           | Some v => v | None => default end)) in
    Ok (b, dict_set entry (JObject (dict_set "enabled" (JBool b) p)) config_data).
Proof.
  intros H. unfold toggle_body, dict_has. rewrite H. cbn iota zeta.
  rewrite H. reflexivity.
Qed.

Lemma toggle_body_absent (entry : string) (fresh : dict) (default : json)
    (config_data : dict) :
  dict_get entry config_data = None ->
  toggle_body entry fresh default config_data
  = let b := negb (truthy (match dict_get "enabled" fresh with
                           | Some v => v | None => default end)) in
    Ok (b, dict_set entry (JObject (dict_set "enabled" (JBool b) fresh)) config_data).
Proof.
  intros H. unfold toggle_body, dict_has. rewrite H. cbn iota zeta.
  rewrite dict_get_set_same. now rewrite dict_set_set.
Qed.

(** X9. [punishment_toggle] stores the negation of the truth value of the
    stored [enabled] (read as true when the entry or the key is missing)
    and announces it; so the first toggle of a configuration without a
    punishment entry switches the system off.  The other entries of the
    punishment configuration and the rest of the configuration file stay
    as they were. *)
Theorem punishment_toggle_flips (config_data : dict) :
  punishment_entry_ok config_data = true ->
  let cfg := fst (punishment_toggle true config_data) in
  let b := negb (truthy (default (JBool true) (stored "enabled" config_data))) in
  snd (punishment_toggle true config_data) = Toggled b /\
  stored "enabled" cfg = Some (JBool b) /\
  (forall k, k <> "enabled" ->
     stored k cfg = if dict_has "punishment" config_data
                    then stored k config_data
                    else dict_get k fresh_punishment) /\
  (forall k, k <> "punishment" -> dict_get k cfg = dict_get k config_data).
Proof.
  intros Hok. cbn zeta.
  unfold punishment_toggle, guarded_toggle; cbn [negb].
  unfold punishment_entry_ok in Hok. unfold stored, dict_has.
  destruct (dict_get "punishment" config_data) as [[ | | | | | | p] | ] eqn:E;
    try discriminate Hok.
  - rewrite (toggle_body_present _ _ _ _ _ E). cbn zeta. cbn [fst snd].
    rewrite dict_get_set_same.
    split; [unfold default; now destruct (dict_get "enabled" p) | ].
    split; [rewrite dict_get_set_same; unfold default;
            now destruct (dict_get "enabled" p) | ].
    split; [intros k Hk; now apply dict_get_set_other | ].
    intros k Hk. apply dict_get_set_other. congruence.
  - rewrite (toggle_body_absent _ _ _ _ E). cbn zeta. cbn [fst snd].
    rewrite dict_get_set_same.
    split; [reflexivity | ].
    split; [reflexivity | ].
    split; [intros k Hk; now apply dict_get_set_other | ].
    intros k Hk. apply dict_get_set_other. congruence.
Qed.

Lemma punishment_toggle_flips_witness :
  snd (punishment_toggle true [("interval", JInt 60)]) = Toggled false /\
  stored "enabled"
    (fst (punishment_toggle true
            [("punishment", JObject [("enabled", JInt 0); ("steps", JArray [])])]))
  = Some (JBool true).
Proof.
  split.
  - exact (proj1 (punishment_toggle_flips [("interval", JInt 60)] eq_refl)).
  - exact (proj1 (proj2 (punishment_toggle_flips
      [("punishment", JObject [("enabled", JInt 0); ("steps", JArray [])])]
      eq_refl))).
Defined.

(** X10. [group_filter_toggle] on a configuration without a group filter
    entry creates the entry and leaves the filter switched off, although a
    present entry without the [enabled] key is switched on: the fresh
    entry is created enabled and then negated. *)
Theorem group_filter_toggle_on_missing_entry (config_data p : dict) :
  (dict_get "group_filter" config_data = None ->
   snd (group_filter_toggle true config_data) = Toggled false /\
   stored_filter "enabled" (fst (group_filter_toggle true config_data))
   = Some (JBool false) /\
   stored_filter "mode" (fst (group_filter_toggle true config_data))
   = Some (JString "include") /\
   stored_filter "group_ids" (fst (group_filter_toggle true config_data))
   = Some (JArray [])) /\
  (dict_get "group_filter" config_data = Some (JObject p) ->
   dict_get "enabled" p = None ->
   snd (group_filter_toggle true config_data) = Toggled true /\
   stored_filter "enabled" (fst (group_filter_toggle true config_data))
   = Some (JBool true)).
Proof.
  unfold group_filter_toggle, guarded_toggle, stored_filter; cbn [negb].
  split.
  - intros E. rewrite (toggle_body_absent _ _ _ _ E). cbn zeta. cbn [fst snd].
    rewrite dict_get_set_same. repeat split.
  - intros E Hp. rewrite (toggle_body_present _ _ _ _ _ E). cbn zeta.
    rewrite Hp. cbn [fst snd truthy negb].
    rewrite dict_get_set_same, dict_get_set_same. split; reflexivity.
Qed.

Lemma group_filter_toggle_on_missing_entry_witness :
  snd (group_filter_toggle true []) = Toggled false /\
  snd (group_filter_toggle true
         [("group_filter", JObject [("mode", JString "exclude")])])
  = Toggled true.
Proof.
  split.
  - exact (proj1 (proj1 (group_filter_toggle_on_missing_entry [] []) eq_refl)).
  - exact (proj1 (proj2 (group_filter_toggle_on_missing_entry
      [("group_filter", JObject [("mode", JString "exclude")])]
      [("mode", JString "exclude")]) eq_refl eq_refl)).
Defined.

Lemma toggle_twice (entry : string) (fresh : dict) (default : json)
    (config_data p : dict) (b : bool) :
  dict_get entry config_data = Some (JObject p) ->
  dict_get "enabled" p = Some (JBool b) ->
  fst (guarded_toggle true (toggle_body entry fresh default)
         (fst (guarded_toggle true (toggle_body entry fresh default) config_data)))
  = config_data.
Proof.
  intros E Hp. unfold guarded_toggle; cbn [negb].
  rewrite (toggle_body_present _ _ _ _ _ E). cbn zeta. cbn [fst].
  rewrite (toggle_body_present _ _ _ _
             (dict_set "enabled" (JBool (negb (truthy
                (match dict_get "enabled" p with
                 | Some v => v | None => default end)))) p)
             (dict_get_set_same _ _ _)).
  cbn zeta. cbn [fst]. rewrite dict_get_set_same, Hp. cbn [truthy].
  rewrite negb_involutive, !dict_set_set.
  rewrite (dict_set_get_id _ _ _ Hp). now apply dict_set_get_id.
Qed.

(** X11. Toggling twice is a round trip: when the stored [enabled] is a
    boolean, two [punishment_toggle]s, and two [group_filter_toggle]s,
    give back the configuration file exactly as it was. *)
Theorem toggle_twice_restores (config_data : dict) (b : bool) :
  (stored "enabled" config_data = Some (JBool b) ->
   fst (punishment_toggle true (fst (punishment_toggle true config_data)))
   = config_data) /\
  (stored_filter "enabled" config_data = Some (JBool b) ->
   fst (group_filter_toggle true (fst (group_filter_toggle true config_data)))
   = config_data).
Proof.
  unfold stored, stored_filter. split; intros H.
  - destruct (dict_get "punishment" config_data) as [[ | | | | | | p] | ] eqn:E;
      try discriminate H.
    exact (toggle_twice _ _ _ _ _ _ E H).
  - destruct (dict_get "group_filter" config_data) as [[ | | | | | | p] | ] eqn:E;
      try discriminate H.
    exact (toggle_twice _ _ _ _ _ _ E H).
Qed.

Lemma toggle_twice_restores_witness :
  let before := [("punishment",
                  JObject [("enabled", JBool true); ("window_hours", JInt 48)]);
                 ("group_filter", JObject [("enabled", JBool true)])] in
  fst (punishment_toggle true (fst (punishment_toggle true before))) = before /\
  fst (group_filter_toggle true (fst (group_filter_toggle true before))) = before.
Proof.
  cbn zeta. split.
  - exact (proj1 (toggle_twice_restores
                    [("punishment",
                      JObject [("enabled", JBool true); ("window_hours", JInt 48)]);
                     ("group_filter", JObject [("enabled", JBool true)])] true)
             eq_refl).
  - exact (proj2 (toggle_twice_restores
                    [("punishment",
                      JObject [("enabled", JBool true); ("window_hours", JInt 48)]);
                     ("group_filter", JObject [("enabled", JBool true)])] true)
             eq_refl).
Defined.

(** X12. The window buttons and the window command agree: a button of
    the punishment menu carries 24, 48 or 72 hours, which the range check
    of [punishment_set_window] lets through, and leaves the configuration
    file that the command with the same number leaves. *)
Theorem window_button_is_window_command
    (data arg : string) (rest : list string) (config_data : dict) (hours : Z) :
  window_map data = Some hours ->
  1 <= hours <= 720 /\
  fst (punishment_callback true data config_data)
  = fst (punishment_set_window (fun _ => Some hours) true (arg :: rest)
           config_data) /\
  (snd (punishment_callback true data config_data) = WindowSet hours <->
   snd (punishment_set_window (fun _ => Some hours) true (arg :: rest)
          config_data) = WindowUpdated hours).
Proof.
  intros Hmap.
  assert (Hrange : 1 <= hours <= 720).
  { unfold window_map in Hmap.
    repeat (destruct (String.eqb data _); [injection Hmap as <-; lia | ]).
    discriminate Hmap. }
  split; [exact Hrange | ].
  assert (Hdata : String.eqb data PUNISHMENT_TOGGLE = false).
  { apply String.eqb_neq. intros ->. discriminate Hmap. }
  unfold punishment_callback, punishment_set_window, set_window_body.
  cbn [negb]. rewrite Hdata, Hmap. unfold mbind, result_bind.
  replace ((hours <? 1) || (hours >? 720)) with false
    by (symmetry; apply orb_false_iff; lia).
  destruct (set_punishment_key _ _ _ _) as [cfg | e]; cbn [fst snd].
  - split; [reflexivity | split; reflexivity].
  - split; [now destruct e | ].
    split; [discriminate | destruct e as [why | | | ]; discriminate].
Qed.

Lemma window_button_is_window_command_witness :
  fst (punishment_callback true "punishment_window_48" [])
  = fst (punishment_set_window (fun _ => Some 48) true ["48"] []).
Proof.
  exact (proj1 (proj2 (window_button_is_window_command
                         "punishment_window_48" "48" [] [] 48 eq_refl))).
Defined.

End Toggles.

(** ** What [punishment_set_steps] stores *)

Section StoredSteps.

Import PunishmentConfig ConfigCommands.

Lemma reduced_well_formed (step : json) :
  is_object step -> ~ bad_type step -> ~ bad_duration step ->
  well_formed_step (reduced step).
Proof.
  intros [fields ->] Ht Hd. cbn [reduced]. eexists _, _.
  split; [reflexivity | split].
  - destruct (dict_get "type" fields) as [t | ] eqn:E; cbn [default from_option id].
    + apply type_allowed_spec.
      destruct (type_allowed t) eqn:A; [reflexivity | exfalso].
      apply Ht. exists fields, t. repeat split; trivial.
      intros H. apply type_allowed_spec in H. congruence.
    + now right.
  - destruct (dict_get "duration" fields) as [d | ] eqn:E; cbn [default from_option id].
    + apply duration_allowed_spec.
      destruct (negb (isinstance_int d) || (int_value d <? 0)) eqn:A;
        [exfalso | reflexivity].
      apply Hd. exists fields, d. repeat split; trivial.
      intros H. apply duration_allowed_spec in H. congruence.
    + exists 0. split; [reflexivity | lia].
Qed.

Lemma well_formed_is_fixed (step : json) :
  well_formed_step step ->
  is_object step /\ ~ bad_type step /\ ~ bad_duration step /\
  reduced step = step.
Proof.
  intros (t & d & -> & Ht & Hd).
  split; [eexists; reflexivity | ].
  split; [ | split; [ | reflexivity]].
  - intros (f & t' & E & G & B). injection E as <-.
    cbn in G. injection G as <-. contradiction.
  - intros (f & d' & E & G & B). injection E as <-.
    cbn in G. injection G as <-. contradiction.
Qed.

Lemma Forall_reduced_well_formed (items : list json) :
  Forall is_object items -> ~ Exists bad_type items ->
  ~ Exists bad_duration items ->
  Forall well_formed_step (List.map reduced items).
Proof.
  induction 1 as [ | step items Hobj _ IH]; intros Ht Hd; [constructor | ].
  cbn [List.map]. constructor.
  - apply reduced_well_formed; trivial.
    + intros H. apply Ht. now apply Exists_cons_hd.
    + intros H. apply Hd. now apply Exists_cons_hd.
  - apply IH.
    + intros H. apply Ht. now apply Exists_cons_tl.
    + intros H. apply Hd. now apply Exists_cons_tl.
Qed.

Lemma Forall_well_formed_fixed (v : list json) :
  Forall well_formed_step v ->
  Forall is_object v /\ ~ Exists bad_type v /\ ~ Exists bad_duration v /\
  List.map reduced v = v.
Proof.
  induction 1 as [ | step v Hstep _ (Hobj & Ht & Hd & Hmap)].
  - repeat split; [constructor | intros H; inversion H | intros H; inversion H].
  - apply well_formed_is_fixed in Hstep.
    destruct Hstep as (Ho & Hnt & Hnd & Hfix).
    split; [now constructor | ].
    split; [intros H; inversion H; subst; tauto | ].
    split; [intros H; inversion H; subst; tauto | ].
    cbn [List.map]. now rewrite Hfix, Hmap.
Qed.

Lemma set_punishment_key_stored (config_data cfg : dict) (key : string)
    (value : json) (fresh : dict) :
  set_punishment_key config_data key value fresh = Ok cfg ->
  dict_get key fresh = Some value ->
  stored key cfg = Some value.
Proof.
  intros Hset Hfresh.
  assert (Hok : punishment_entry_ok config_data = true).
  { unfold punishment_entry_ok. unfold set_punishment_key in Hset.
    destruct (dict_get "punishment" config_data) as [[ | | | | | | p] | ];
      trivial; discriminate Hset. }
  destruct (set_punishment_key_ok config_data key value fresh Hok Hfresh)
    as (cfg' & E & Hstored & _).
  congruence.
Qed.

(** X13. Whatever [punishment_set_steps] announces as updated is what it
    stored, and it is well formed: a non-empty list of dictionaries with
    exactly the keys ["type"] and ["duration"], a type that is
    ["warning"] or ["disable"] and a duration that is a non-negative
    integer.  Only an administrator gets that answer. *)
Theorem updated_steps_are_well_formed
    (json_loads : string -> option json) (privileged : bool)
    (args : list string) (config_data : dict) (v : list json) :
  snd (punishment_set_steps json_loads privileged args config_data)
  = StepsUpdated v ->
  privileged = true /\ v <> [] /\ Forall well_formed_step v /\
  stored "steps" (fst (punishment_set_steps json_loads privileged args config_data))
  = Some (JArray v).
Proof.
  intros Hans.
  destruct (punishment_set_steps_cases json_loads privileged args config_data)
    as [(validated & cfg & Hp & _ & Hbody & Hrun) | [_ Hno]];
    [ | exfalso; apply Hno; now exists v].
  rewrite Hrun in Hans |- *. cbn [fst snd] in *. injection Hans as ->.
  split; [exact Hp | ].
  assert (Hload : exists items, json_loads (join_args args) = Some (JArray items)).
  { unfold set_steps_body in Hbody.
    destruct (json_loads (join_args args)) as [[ | | | | | items | ] | ];
      try discriminate Hbody. eauto. }
  destruct Hload as [items Hload].
  destruct (set_steps_body_inv json_loads _ _ _ _ _ Hload Hbody)
    as (Hne & Hloop & Hset).
  pose proof (validate_loop_returns_objects _ _ _ Hloop) as Hobj.
  destruct (validate_loop_objects items [] Hobj)
    as [(Hok & Ht & Hd) | [[why Hraise] _]]; [ | congruence].
  rewrite Hok in Hloop. injection Hloop as <-. cbn [app].
  split; [destruct items; [contradiction | discriminate] | ].
  split; [now apply Forall_reduced_well_formed | ].
  eapply set_punishment_key_stored; [exact Hset | reflexivity].
Qed.

Lemma updated_steps_are_well_formed_witness :
  Forall well_formed_step
    [JObject [("type", JString "disable"); ("duration", JInt 30)]].
Proof.
  refine (proj1 (proj2 (proj2 (updated_steps_are_well_formed
    (fun _ => Some (JArray [JObject [("duration", JInt 30)]]))
    true ["steps"] []
    [JObject [("type", JString "disable"); ("duration", JInt 30)]] _)))).
  reflexivity.
Defined.

(** X14. What was stored can be sent again: a non-empty list of
    well-formed steps passes the validation unchanged, so an
    administrator who submits the stored steps gets exactly them stored
    and announced. *)
Theorem stored_steps_can_be_sent_again
    (json_loads : string -> option json) (args : list string)
    (config_data : dict) (v : list json) :
  json_loads (join_args args) = Some (JArray v) ->
  args <> [] -> punishment_entry_ok config_data = true ->
  v <> [] -> Forall well_formed_step v ->
  snd (punishment_set_steps json_loads true args config_data) = StepsUpdated v /\
  stored "steps" (fst (punishment_set_steps json_loads true args config_data))
  = Some (JArray v).
Proof.
  intros Hload Hargs Hok Hne Hwf.
  destruct (Forall_well_formed_fixed v Hwf) as (Hobj & Ht & Hd & Hfix).
  destruct (set_steps_body_accepts json_loads args config_data v
              Hload Hok Hne Hobj Ht Hd) as (cfg & Hbody & Hsteps & _).
  rewrite Hfix in Hbody, Hsteps.
  unfold punishment_set_steps. cbn [negb].
  destruct args as [ | a args]; [contradiction | ].
  rewrite Hbody. split; [reflexivity | exact Hsteps].
Qed.

Lemma stored_steps_can_be_sent_again_witness :
  snd (punishment_set_steps
         (fun _ => Some (JArray [JObject [("type", JString "warning");
                                          ("duration", JInt 0)]]))
         true ["steps"] [])
  = StepsUpdated [JObject [("type", JString "warning"); ("duration", JInt 0)]].
Proof.
  refine (proj1 (stored_steps_can_be_sent_again
    (fun _ => Some (JArray [JObject [("type", JString "warning");
                                     ("duration", JInt 0)]]))
    ["steps"] [] _ eq_refl _ eq_refl _ _)).
  - discriminate.
  - discriminate.
  - repeat constructor. eexists _, _.
    split; [reflexivity | split; [now left | ]].
    exists 0. split; [reflexivity | lia].
Defined.

End StoredSteps.

(** ** The window and the steps, one after the other *)

Section WindowAndSteps.

Import PunishmentConfig.

Variable int_of_str : string -> option Z.
Variable json_loads : string -> option json.

Lemma set_window_runs (arg : string) (rest : list string)
    (config_data cfg : dict) (h : Z) :
  int_of_str arg = Some h -> 1 <= h <= 720 ->
  set_punishment_key config_data "window_hours" (JInt h)
    [("enabled", JBool true); ("window_hours", JInt h); ("steps", JArray [])]
  = Ok cfg ->
  punishment_set_window int_of_str true (arg :: rest) config_data
  = (cfg, WindowUpdated h).
Proof.
  intros Hint Hrange Hset.
  unfold punishment_set_window, set_window_body. rewrite Hint.
  unfold mbind, result_bind. cbn [negb].
  replace ((h <? 1) || (h >? 720)) with false
    by (symmetry; apply orb_false_iff; lia).
  now rewrite Hset.
Qed.

Lemma set_steps_runs (args : list string) (config_data cfg : dict)
    (items : list json) :
  json_loads (join_args args) = Some (JArray items) ->
  args <> [] -> items <> [] -> Forall is_object items ->
  ~ Exists bad_type items -> ~ Exists bad_duration items ->
  set_punishment_key config_data "steps" (JArray (List.map reduced items))
    [("enabled", JBool true); ("window_hours", JInt 72);
     ("steps", JArray (List.map reduced items))] = Ok cfg ->
  punishment_set_steps json_loads true args config_data
  = (cfg, StepsUpdated (List.map reduced items)).
Proof.
  intros Hload Hargs Hne Hobj Ht Hd Hset.
  unfold punishment_set_steps, set_steps_body. cbn [negb].
  destruct args as [ | a args]; [contradiction | ].
  rewrite Hload. unfold mbind, result_bind, validate_steps_data.
  destruct items as [ | step items]; [contradiction | ].
  destruct (validate_loop_objects (step :: items) [] Hobj)
    as [(-> & _) | [_ Hbad]]; [ | tauto].
  cbn [app]. now rewrite Hset.
Qed.

(** X15. [punishment_set_window] and [punishment_set_steps] do not get in
    each other's way: for an accepted window and accepted steps, sending
    the two commands in either order ends with the same punishment
    configuration (the window sent, the steps sent, the [enabled] flag
    as before or [true] for a new entry) and the same rest of the
    configuration file. *)
Theorem window_and_steps_in_either_order
    (warg : string) (wrest sargs : list string) (config_data : dict)
    (h : Z) (items : list json) :
  int_of_str warg = Some h -> 1 <= h <= 720 ->
  json_loads (join_args sargs) = Some (JArray items) ->
  sargs <> [] -> items <> [] -> Forall is_object items ->
  ~ Exists bad_type items -> ~ Exists bad_duration items ->
  punishment_entry_ok config_data = true ->
  let window_first :=
    fst (punishment_set_steps json_loads true sargs
           (fst (punishment_set_window int_of_str true (warg :: wrest)
                   config_data))) in
  let steps_first :=
    fst (punishment_set_window int_of_str true (warg :: wrest)
           (fst (punishment_set_steps json_loads true sargs config_data))) in
  (forall k, stored k window_first = stored k steps_first) /\
  (forall k, k <> "punishment" ->
     dict_get k window_first = dict_get k steps_first) /\
  stored "window_hours" window_first = Some (JInt h) /\
  stored "steps" window_first = Some (JArray (List.map reduced items)) /\
  stored "enabled" window_first
  = if dict_has "punishment" config_data then stored "enabled" config_data
    else Some (JBool true).
Proof.
  intros Hint Hrange Hload Hargs Hne Hobj Ht Hd Hok. cbn zeta.
  set (S := JArray (List.map reduced items)).
  set (freshW := [("enabled", JBool true); ("window_hours", JInt h);
                  ("steps", JArray [])]).
  set (freshS := [("enabled", JBool true); ("window_hours", JInt 72);
                  ("steps", S)]).
  destruct (set_punishment_key_lookups config_data "window_hours" (JInt h)
              freshW Hok eq_refl) as (c1 & E1 & Hok1 & Hhas1 & L1 & R1).
  destruct (set_punishment_key_lookups c1 "steps" S freshS Hok1 eq_refl)
    as (a & Ea & _ & _ & La & Ra).
  destruct (set_punishment_key_lookups config_data "steps" S freshS Hok eq_refl)
    as (c2 & E2 & Hok2 & Hhas2 & L2 & R2).
  destruct (set_punishment_key_lookups c2 "window_hours" (JInt h) freshW
              Hok2 eq_refl) as (b & Eb & _ & _ & Lb & Rb).
  rewrite (set_window_runs warg wrest config_data c1 h Hint Hrange E1).
  rewrite (set_steps_runs sargs config_data c2 items Hload Hargs Hne Hobj Ht Hd E2).
  cbn [fst].
  rewrite (set_steps_runs sargs c1 a items Hload Hargs Hne Hobj Ht Hd Ea).
  rewrite (set_window_runs warg wrest c2 b h Hint Hrange Eb).
  cbn [fst].
  assert (Hfresh : forall k, String.eqb "steps" k = false ->
                             String.eqb "window_hours" k = false ->
                             dict_get k freshW = dict_get k freshS).
  { intros k Hs Hw. unfold freshW, freshS. cbn [dict_get].
    rewrite Hs, Hw. reflexivity. }
  split; [ | split; [ | split; [ | split]]].
  - intros k. rewrite La, Lb, L1, L2, Hhas1, Hhas2.
    destruct (String.eqb "steps" k) eqn:Hs;
      destruct (String.eqb "window_hours" k) eqn:Hw; trivial.
    + apply String.eqb_eq in Hs, Hw. congruence.
    + destruct (dict_has "punishment" config_data); [reflexivity | ].
      now apply Hfresh.
  - intros k Hk. now rewrite Ra, Rb, R1, R2.
  - rewrite La, Hhas1, L1. reflexivity.
  - rewrite La. reflexivity.
  - rewrite La, Hhas1, L1. cbn [String.eqb Ascii.eqb Bool.eqb].
    destruct (dict_has "punishment" config_data); reflexivity.
Qed.

End WindowAndSteps.

Section WindowAndStepsExample.

Import PunishmentConfig.

Lemma window_and_steps_in_either_order_witness :
  let before := [("punishment",
                  JObject [("enabled", JBool false); ("window_hours", JInt 24);
                           ("steps", JArray [])])] in
  let loads := fun _ : string =>
    Some (JArray
            [JObject
               [("type", JString "warning")]]) in
  stored "enabled"
    (fst (punishment_set_steps loads true ["steps"]
            (fst (punishment_set_window (fun _ => Some 48)
                    true ["48"] before))))
  = Some (JBool false).
Proof.
  cbn zeta.
  refine (proj2 (proj2 (proj2 (proj2
    (window_and_steps_in_either_order (fun _ => Some 48)
       (fun _ => Some (JArray
                         [JObject
                            [("type", JString "warning")]]))
       "48" [] ["steps"]
       [("punishment",
         JObject [("enabled", JBool false); ("window_hours", JInt 24);
                  ("steps", JArray [])])]
       48 [JObject [("type", JString "warning")]]
       eq_refl _ eq_refl _ _ _ _ _ eq_refl))))).
  - lia.
  - discriminate.
  - discriminate.
  - all_objects.
  - no_bad_element.
  - no_bad_element.
Defined.

End WindowAndStepsExample.

(** ** The group filter commands *)

Section GroupFilterFacts.

Import PunishmentConfig ConfigCommands.

Variable int_of_str : string -> option Z.
Variable strip : string -> string.
Variable lower : string -> string.

(** The [try] block of [group_filter_add], case by case. *)
Lemma group_filter_add_body_cases (arg : string) (config_data : dict) :
  group_filter_add_body int_of_str arg config_data
  = match int_of_str arg with
    | None => Raise (ValueError InvalidLiteral)
    | Some z =>
        match dict_get "group_filter" config_data with
        | None =>
            Ok (Some (dict_set "group_filter"
                        (JObject [("enabled", JBool false);
                                  ("mode", JString "include");
                                  ("group_ids", JArray [JInt z])])
                        config_data),
                GroupAdded z)
        | Some (JObject p) =>
            match default (JArray []) (dict_get "group_ids" p) with
            | JArray items =>
                if existsb (py_eq_int z) items then Ok (None, GroupAlready z)
                else
                  Ok (Some (dict_set "group_filter"
                              (JObject (dict_set "group_ids"
                                          (JArray (items ++ [JInt z])%list) p))
                              config_data),
                      GroupAdded z)
            | JObject _ => Raise AttributeError
            | _ => Raise TypeError
            end
        | Some _ => Raise AttributeError
        end
    end.
Proof.
  unfold group_filter_add_body, parse_int, mbind, result_bind.
  destruct (int_of_str arg) as [z | ]; [ | reflexivity].
  destruct (dict_get "group_filter" config_data) as [[ | | | | | | p] | ];
    try reflexivity.
  cbn [py_get]. unfold default.
  destruct (dict_get "group_ids" p) as [[ | | | | | items | f] | ];
    cbn [from_option id py_contains existsb]; reflexivity.
Qed.

(** The [try] block of [group_filter_remove], case by case. *)
Lemma group_filter_remove_body_cases (arg : string) (config_data : dict) :
  group_filter_remove_body int_of_str arg config_data
  = match int_of_str arg with
    | None => Raise (ValueError InvalidLiteral)
    | Some z =>
        match dict_get "group_filter" config_data with
        | None => Ok (None, GroupNoFilter)
        | Some (JObject p) =>
            match default (JArray []) (dict_get "group_ids" p) with
            | JArray items =>
                if existsb (py_eq_int z) items then
                  Ok (Some (dict_set "group_filter"
                              (JObject (dict_set "group_ids"
                                          (JArray (py_remove z items)) p))
                              config_data),
                      GroupRemoved z)
                else Ok (None, GroupNotInFilter z)
            | JObject _ => Ok (None, GroupNotInFilter z)
            | _ => Raise TypeError
            end
        | Some _ => Raise AttributeError
        end
    end.
Proof.
  unfold group_filter_remove_body, parse_int, mbind, result_bind.
  destruct (int_of_str arg) as [z | ]; [ | reflexivity].
  destruct (dict_get "group_filter" config_data) as [[ | | | | | | p] | ];
    try reflexivity.
  cbn [py_get]. unfold default.
  destruct (dict_get "group_ids" p) as [[ | | | | | items | f] | ];
    cbn [from_option id py_contains existsb]; reflexivity.
Qed.

Lemma existsb_appended (z : Z) (items : list json) :
  existsb (py_eq_int z) (items ++ [JInt z])%list = true.
Proof.
  rewrite existsb_app. cbn [existsb py_eq_int]. rewrite Z.eqb_refl.
  now rewrite orb_true_r.
Qed.

Lemma py_remove_appended (z : Z) (items : list json) :
  existsb (py_eq_int z) items = false ->
  py_remove z (items ++ [JInt z])%list = items.
Proof.
  induction items as [ | x items IH]; cbn [existsb app py_remove].
  - intros _. cbn [py_eq_int]. now rewrite Z.eqb_refl.
  - intros H. apply orb_false_iff in H. destruct H as [Hx Hrest].
    rewrite Hx. now rewrite IH.
Qed.

(** X16. [group_filter_add] is idempotent: sending the same command a
    second time never changes the configuration file again, whatever the
    arguments and the file are. *)
Theorem group_filter_add_twice
    (privileged : bool) (args : list string) (config_data : dict) :
  fst (group_filter_add int_of_str privileged args
         (fst (group_filter_add int_of_str privileged args config_data)))
  = fst (group_filter_add int_of_str privileged args config_data).
Proof.
  unfold group_filter_add.
  destruct privileged; cbn [negb]; [ | reflexivity].
  destruct args as [ | arg args]; [reflexivity | ].
  rewrite (group_filter_add_body_cases arg config_data).
  destruct (int_of_str arg) as [z | ] eqn:Hz.
  2: { cbn [guarded_group fst].
       rewrite group_filter_add_body_cases, Hz. reflexivity. }
  assert (Hsame : forall e,
            group_filter_add_body int_of_str arg config_data = Raise e ->
            fst (guarded_group config_data (Raise e)) = config_data).
  { intros e _. destruct e; reflexivity. }
  destruct (dict_get "group_filter" config_data) as [entry | ] eqn:E.
  - destruct entry as [ | | | | | | p];
      try (cbn [guarded_group fst];
           rewrite group_filter_add_body_cases, Hz, E; reflexivity).
    destruct (default (JArray []) (dict_get "group_ids" p))
      as [ | | | | | items | f] eqn:D;
      try (cbn [guarded_group fst];
           rewrite group_filter_add_body_cases, Hz, E, D; reflexivity).
    destruct (existsb (py_eq_int z) items) eqn:X.
    + cbn [guarded_group fst].
      rewrite group_filter_add_body_cases, Hz, E, D, X. reflexivity.
    + cbn [guarded_group fst].
      rewrite group_filter_add_body_cases, Hz, dict_get_set_same.
      rewrite dict_get_set_same. cbn [default from_option id].
      rewrite existsb_appended. reflexivity.
  - cbn [guarded_group fst].
    rewrite group_filter_add_body_cases, Hz, dict_get_set_same.
    cbn [dict_get String.eqb Ascii.eqb Bool.eqb default from_option id
         existsb py_eq_int].
    rewrite Z.eqb_refl. reflexivity.
Qed.

(** X17. When [group_filter_add] answers that the ID was added, or that
    it is already there, the stored [group_ids] is a list that holds the
    ID. *)
Theorem group_filter_add_stores_the_id
    (privileged : bool) (args : list string) (config_data : dict) (z : Z) :
  snd (group_filter_add int_of_str privileged args config_data) = GroupAdded z \/
  snd (group_filter_add int_of_str privileged args config_data) = GroupAlready z ->
  exists items,
    stored_filter "group_ids"
      (fst (group_filter_add int_of_str privileged args config_data))
    = Some (JArray items) /\
    existsb (py_eq_int z) items = true.
Proof.
  unfold group_filter_add, stored_filter.
  destruct privileged; cbn [negb];
    [ | intros [H | H]; discriminate H].
  destruct args as [ | arg args]; [intros [H | H]; discriminate H | ].
  rewrite (group_filter_add_body_cases arg config_data).
  destruct (int_of_str arg) as [z' | ];
    [ | intros [H | H]; discriminate H].
  destruct (dict_get "group_filter" config_data) as [entry | ] eqn:E.
  - destruct entry as [ | | | | | | p];
      try (intros [H | H]; discriminate H).
    destruct (default (JArray []) (dict_get "group_ids" p))
      as [ | | | | | items | f] eqn:D;
      try (intros [H | H]; discriminate H).
    destruct (existsb (py_eq_int z') items) eqn:X; cbn [guarded_group fst snd].
    + intros [H | H]; [discriminate H | injection H as <-].
      rewrite E. unfold default in D.
      destruct (dict_get "group_ids" p) as [ids | ] eqn:G;
        cbn [from_option id] in D.
      * subst ids. exists items. now split.
      * injection D as <-. discriminate X.
    + intros [H | H]; [injection H as <- | discriminate H].
      rewrite dict_get_set_same, dict_get_set_same.
      eexists. split; [reflexivity | apply existsb_appended].
  - cbn [guarded_group fst snd].
    intros [H | H]; [injection H as <- | discriminate H].
    rewrite dict_get_set_same. eexists. split; [reflexivity | ].
    cbn [existsb py_eq_int]. now rewrite Z.eqb_refl.
Qed.

(** X18. Adding an ID and removing it again is a round trip: when the
    stored [group_ids] is a list that does not hold the ID,
    [group_filter_add] followed by [group_filter_remove] of the same ID
    gives back the configuration file exactly as it was. *)
Theorem group_filter_remove_undoes_add
    (arg : string) (rest rest' : list string) (config_data p : dict)
    (items : list json) (z : Z) :
  int_of_str arg = Some z ->
  dict_get "group_filter" config_data = Some (JObject p) ->
  dict_get "group_ids" p = Some (JArray items) ->
  existsb (py_eq_int z) items = false ->
  snd (group_filter_add int_of_str true (arg :: rest) config_data) = GroupAdded z /\
  group_filter_remove int_of_str true (arg :: rest')
    (fst (group_filter_add int_of_str true (arg :: rest) config_data))
  = (config_data, GroupRemoved z).
Proof.
  intros Hz E G X.
  unfold group_filter_add, group_filter_remove. cbn [negb].
  rewrite group_filter_add_body_cases, Hz, E, G.
  cbn [default from_option id]. rewrite X. cbn [guarded_group fst snd].
  split; [reflexivity | ].
  rewrite group_filter_remove_body_cases, Hz, !dict_get_set_same.
  cbn [default from_option id]. rewrite existsb_appended.
  rewrite (py_remove_appended z items X), !dict_set_set.
  rewrite (dict_set_get_id _ _ _ G), (dict_set_get_id _ _ _ E).
  reflexivity.
Qed.

Lemma py_remove_one (z : Z) (items : list json) :
  existsb (py_eq_int z) items = true ->
  occurrences z items = S (occurrences z (py_remove z items)) /\
  List.length items = S (List.length (py_remove z items)) /\
  List.filter (fun x => negb (py_eq_int z x)) (py_remove z items)
  = List.filter (fun x => negb (py_eq_int z x)) items.
Proof.
  unfold occurrences.
  induction items as [ | x items IH]; cbn [existsb]; [discriminate | ].
  cbn [py_remove List.filter]. destruct (py_eq_int z x) eqn:Ex.
  - intros _. cbn [negb List.length]. repeat split.
  - cbn [orb negb List.filter List.length]. rewrite Ex. cbn [negb].
    intros H. destruct (IH H) as (Ho & Hl & Hf).
    rewrite Hf. repeat split; lia.
Qed.

(** X19. [group_filter_remove] takes out one occurrence only: when it
    answers that the ID was removed, the stored list is one element
    shorter, holds the ID once less, and holds every other element as
    before and in the same order.  An ID stored twice is still in the
    filter afterwards. *)
Theorem group_filter_remove_takes_one
    (privileged : bool) (args : list string) (config_data : dict) (z : Z) :
  snd (group_filter_remove int_of_str privileged args config_data)
  = GroupRemoved z ->
  exists before after,
    stored_filter "group_ids" config_data = Some (JArray before) /\
    stored_filter "group_ids"
      (fst (group_filter_remove int_of_str privileged args config_data))
    = Some (JArray after) /\
    List.length before = S (List.length after) /\
    occurrences z before = S (occurrences z after) /\
    List.filter (fun x => negb (py_eq_int z x)) after
    = List.filter (fun x => negb (py_eq_int z x)) before /\
    forall k, k <> "group_ids" ->
      stored_filter k
        (fst (group_filter_remove int_of_str privileged args config_data))
      = stored_filter k config_data.
Proof.
  unfold group_filter_remove, stored_filter.
  destruct privileged; cbn [negb]; [ | discriminate].
  destruct args as [ | arg args]; [discriminate | ].
  rewrite (group_filter_remove_body_cases arg config_data).
  destruct (int_of_str arg) as [z' | ]; [ | discriminate].
  destruct (dict_get "group_filter" config_data) as [entry | ] eqn:E;
    [ | discriminate].
  destruct entry as [ | | | | | | p]; try discriminate.
  unfold default.
  destruct (dict_get "group_ids" p) as [ids | ] eqn:G; cbn [from_option id].
  - destruct ids as [ | | | | | items | f]; try discriminate.
    destruct (existsb (py_eq_int z') items) eqn:X; [ | discriminate].
    cbn [guarded_group fst snd]. intros H. injection H as <-.
    destruct (py_remove_one z' items X) as (Ho & Hl & Hf).
    exists items, (py_remove z' items).
    rewrite dict_get_set_same, dict_get_set_same.
    repeat split; trivial.
    intros k Hk. now apply dict_get_set_other.
  - cbn [existsb]. discriminate.
Qed.

Lemma parse_pieces_spec (pieces : list string) :
  let kept := List.filter (fun s => negb (String.eqb s ""))
                (List.map strip pieces) in
  (forall zs group_ids,
      Forall2 (fun s z => int_of_str s = Some z) kept zs ->
      parse_pieces int_of_str strip pieces group_ids
      = Ok (group_ids ++ zs)%list) /\
  (forall group_ids,
      Exists (fun s => int_of_str s = None) kept ->
      parse_pieces int_of_str strip pieces group_ids
      = Raise (ValueError InvalidLiteral)).
Proof.
  cbn zeta. induction pieces as [ | gid pieces [IHok IHbad]];
    cbn [List.map List.filter parse_pieces].
  - split.
    + intros zs group_ids H. inversion H. now rewrite app_nil_r.
    + intros group_ids H. inversion H.
  - destruct (String.eqb (strip gid) "") eqn:E; cbn [negb].
    + split; [exact IHok | exact IHbad].
    + unfold parse_int, mbind, result_bind. split.
      * intros zs group_ids H. inversion H as [ | ? z ? zs' Hz Hrest]; subst.
        rewrite Hz, (IHok zs' _ Hrest), <- app_assoc. reflexivity.
      * intros group_ids H.
        destruct (int_of_str (strip gid)) as [z | ] eqn:Hz; [ | reflexivity].
        apply IHbad. inversion H; subst; [congruence | assumption].
Qed.

Lemma parse_group_ids_spec (args : list string) :
  let kept := List.filter (fun s => negb (String.eqb s ""))
                (List.map strip (List.concat (List.map split_commas args))) in
  (forall zs group_ids,
      Forall2 (fun s z => int_of_str s = Some z) kept zs ->
      parse_group_ids int_of_str strip args group_ids
      = Ok (group_ids ++ zs)%list) /\
  (forall group_ids,
      Exists (fun s => int_of_str s = None) kept ->
      parse_group_ids int_of_str strip args group_ids
      = Raise (ValueError InvalidLiteral)).
Proof.
  cbn zeta. induction args as [ | arg args [IHok IHbad]];
    cbn [List.map List.concat parse_group_ids].
  - split.
    + intros zs group_ids H. inversion H. now rewrite app_nil_r.
    + intros group_ids H. inversion H.
  - rewrite List.map_app, filter_app.
    destruct (parse_pieces_spec (split_commas arg)) as [Pok Pbad].
    cbn zeta in Pok, Pbad. unfold mbind, result_bind. split.
    + intros zs group_ids H. apply Forall2_app_inv_l in H.
      destruct H as (zs1 & zs2 & H1 & H2 & ->).
      rewrite (Pok zs1 _ H1), (IHok zs2 _ H2), <- app_assoc. reflexivity.
    + intros group_ids H. apply Exists_app in H.
      destruct (parse_pieces int_of_str strip (split_commas arg) group_ids)
        as [ids | e] eqn:P.
      * destruct H as [H | H]; [rewrite (Pbad _ H) in P; discriminate P | ].
        now apply IHbad.
      * destruct H as [H | H]; [rewrite (Pbad _ H) in P; congruence | ].
        clear IHok IHbad Pbad H.
        assert (Hval : forall l acc e',
                   parse_pieces int_of_str strip l acc = Raise e' ->
                   e' = ValueError InvalidLiteral).
        { induction l as [ | x l IHl]; intros acc e' Hl;
            cbn [parse_pieces] in Hl; [discriminate Hl | ].
          destruct (String.eqb (strip x) ""); [now apply IHl in Hl | ].
          unfold parse_int, mbind, result_bind in Hl.
          destruct (int_of_str (strip x)); [now apply IHl in Hl | congruence]. }
        now rewrite (Hval _ _ _ P).
Qed.

(** X20. [group_filter_set] is all or nothing.  The IDs are the pieces of
    the arguments between commas, stripped, the empty ones dropped.  When
    every piece reads as an integer, the stored [group_ids] becomes
    exactly those integers in the order given (duplicates kept, possibly
    none at all) and the other entries of the filter stay; when one piece
    does not, the configuration file is left as it was and the answer is
    that the ID is invalid. *)
Theorem group_filter_set_all_or_nothing
    (arg : string) (rest : list string) (config_data : dict) :
  let kept := List.filter (fun s => negb (String.eqb s ""))
                (List.map strip
                   (List.concat (List.map split_commas (arg :: rest)))) in
  (forall zs p,
      Forall2 (fun s z => int_of_str s = Some z) kept zs ->
      dict_get "group_filter" config_data = Some (JObject p) ->
      snd (group_filter_set int_of_str strip true (arg :: rest) config_data)
      = GroupSet zs /\
      stored_filter "group_ids"
        (fst (group_filter_set int_of_str strip true (arg :: rest) config_data))
      = Some (JArray (List.map JInt zs)) /\
      forall k, k <> "group_ids" ->
        stored_filter k
          (fst (group_filter_set int_of_str strip true (arg :: rest) config_data))
        = stored_filter k config_data) /\
  (Exists (fun s => int_of_str s = None) kept ->
   group_filter_set int_of_str strip true (arg :: rest) config_data
   = (config_data, GroupInvalid)).
Proof.
  cbn zeta.
  destruct (parse_group_ids_spec (arg :: rest)) as [Pok Pbad].
  cbn zeta in Pok, Pbad.
  unfold group_filter_set, group_filter_set_body, mbind, result_bind.
  cbn [negb]. split.
  - intros zs p H E. rewrite (Pok zs [] H). cbn [app].
    unfold set_group_filter_key, stored_filter. rewrite E.
    cbn [guarded_group fst snd]. rewrite dict_get_set_same, dict_get_set_same.
    repeat split. intros k Hk. now apply dict_get_set_other.
  - intros H. rewrite (Pbad [] H). reflexivity.
Qed.

(** X21. [group_filter_mode] never stores a mode other than ["include"]
    and ["exclude"]: whatever the arguments, either the configuration
    file is left as it was, or the stored mode is one of the two and is
    the one announced. *)
Theorem group_filter_mode_stores_a_mode
    (privileged : bool) (args : list string) (config_data : dict) :
  fst (group_filter_mode lower privileged args config_data) = config_data \/
  exists mode,
    (mode = "include" \/ mode = "exclude") /\
    snd (group_filter_mode lower privileged args config_data) = GroupMode mode /\
    stored_filter "mode" (fst (group_filter_mode lower privileged args config_data))
    = Some (JString mode).
Proof.
  unfold group_filter_mode.
  destruct privileged; cbn [negb]; [ | now left].
  destruct args as [ | arg args]; [now left | ].
  destruct (String.eqb (lower arg) "include" || String.eqb (lower arg) "exclude")
    eqn:M; cbn [negb]; [ | now left].
  unfold set_group_filter_key, stored_filter.
  destruct (dict_get "group_filter" config_data) as [[ | | | | | | p] | ];
    try (now left); right; exists (lower arg); cbn [fst snd];
    rewrite dict_get_set_same.
  - rewrite dict_get_set_same.
    apply orb_true_iff in M. rewrite !String.eqb_eq in M. now repeat split.
  - apply orb_true_iff in M. rewrite !String.eqb_eq in M.
    repeat split; trivial.
Qed.

End GroupFilterFacts.

Section GroupFilterExamples.

Import PunishmentConfig ConfigCommands.

Lemma group_filter_add_stores_the_id_witness :
  exists items,
    stored_filter "group_ids"
      (fst (group_filter_add (fun _ => Some 5) true ["5"]
              [("group_filter", JObject [("group_ids", JArray [JInt 2])])]))
    = Some (JArray items) /\
    existsb (py_eq_int 5) items = true.
Proof.
  apply (group_filter_add_stores_the_id (fun _ => Some 5) true ["5"]
           [("group_filter", JObject [("group_ids", JArray [JInt 2])])] 5).
  left. reflexivity.
Defined.

Lemma group_filter_remove_undoes_add_witness :
  let before := [("group_filter",
                  JObject [("enabled", JBool true);
                           ("group_ids", JArray [JInt 2; JInt 3])])] in
  group_filter_remove (fun _ => Some 5) true ["5"]
    (fst (group_filter_add (fun _ => Some 5) true ["5"] before))
  = (before, GroupRemoved 5).
Proof.
  cbn zeta.
  exact (proj2 (group_filter_remove_undoes_add (fun _ => Some 5) "5" [] []
                  [("group_filter",
                    JObject [("enabled", JBool true);
                             ("group_ids", JArray [JInt 2; JInt 3])])]
                  [("enabled", JBool true);
                   ("group_ids", JArray [JInt 2; JInt 3])]
                  [JInt 2; JInt 3] 5 eq_refl eq_refl eq_refl eq_refl)).
Defined.

Lemma group_filter_remove_takes_one_witness :
  exists before after,
    stored_filter "group_ids"
      [("group_filter", JObject [("group_ids", JArray [JInt 7; JInt 2; JInt 7])])]
    = Some (JArray before) /\
    stored_filter "group_ids"
      (fst (group_filter_remove (fun _ => Some 7) true ["7"]
              [("group_filter",
                JObject [("group_ids", JArray [JInt 7; JInt 2; JInt 7])])]))
    = Some (JArray after) /\
    occurrences 7 before = S (occurrences 7 after).
Proof.
  destruct (group_filter_remove_takes_one (fun _ => Some 7) true ["7"]
              [("group_filter",
                JObject [("group_ids", JArray [JInt 7; JInt 2; JInt 7])])] 7
              eq_refl)
    as (before & after & Hb & Ha & _ & Ho & _).
  exists before, after. repeat split; assumption.
Defined.

Lemma group_filter_set_all_or_nothing_witness :
  let before := [("group_filter",
                  JObject [("mode", JString "exclude");
                           ("group_ids", JArray [JInt 9])])] in
  let read := fun s : string =>
    if String.eqb s "1" then Some 1
    else if String.eqb s "2" then Some 2 else None in
  stored_filter "group_ids"
    (fst (group_filter_set read (fun s => s) true ["1,2,"; "1"] before))
  = Some (JArray [JInt 1; JInt 2; JInt 1]) /\
  group_filter_set read (fun s => s) true ["1,x"] before
  = (before, GroupInvalid).
Proof.
  cbn zeta. split.
  - refine (proj1 (proj2 (proj1
      (group_filter_set_all_or_nothing
         (fun s : string =>
            if String.eqb s "1" then Some 1
            else if String.eqb s "2" then Some 2 else None)
         (fun s => s) "1,2," ["1"]
         [("group_filter",
           JObject [("mode", JString "exclude");
                    ("group_ids", JArray [JInt 9])])])
      [1; 2; 1] _ _ eq_refl))).
    repeat constructor.
  - refine (proj2
      (group_filter_set_all_or_nothing
         (fun s : string =>
            if String.eqb s "1" then Some 1
            else if String.eqb s "2" then Some 2 else None)
         (fun s => s) "1,x" []
         [("group_filter",
           JObject [("mode", JString "exclude");
                    ("group_ids", JArray [JInt 9])])]) _).
    apply Exists_cons_tl, Exists_cons_hd. reflexivity.
Defined.

End GroupFilterExamples.

(** ** The pages of the disabled users keyboard *)

Section Pages.

Import DisabledUsersKeyboard.

Context {A : Type}.

Lemma firstn_min_length (n : nat) (l : list A) :
  firstn (Nat.min n (List.length l)) l = firstn n l.
Proof.
  destruct (Nat.le_ge_cases n (List.length l)) as [H | H].
  - now rewrite Nat.min_l.
  - rewrite Nat.min_r by exact H. now rewrite !firstn_all2.
Qed.

Lemma firstn_then_chunk (a b : nat) (l : list A) :
  (firstn a l ++ firstn b (skipn a l))%list = firstn (a + b) l.
Proof.
  revert l. induction a as [ | a IH]; intros l; [reflexivity | ].
  destruct l as [ | x l]; cbn [firstn skipn Nat.add app].
  - now rewrite firstn_nil.
  - now rewrite IH.
Qed.

(** A page with a non-negative number is the chunk of [per_page] users
    behind the users of the pages before it. *)
Lemma page_users_chunk (users_list : list A) (page per_page : Z) :
  0 <= page -> 0 < per_page ->
  page_users users_list page per_page
  = firstn (Z.to_nat per_page) (skipn (Z.to_nat (page * per_page)) users_list).
Proof.
  intros Hpage Hpp. unfold page_users, py_slice, clip.
  set (len := Z.of_nat (List.length users_list)).
  assert (Hstart : 0 <= page * per_page) by nia.
  assert (Hlen : 0 <= len) by (unfold len; lia).
  replace (page * per_page <? 0) with false by (symmetry; apply Z.ltb_ge; lia).
  replace (Z.min (page * per_page + per_page) len <? 0) with false
    by (symmetry; apply Z.ltb_ge; lia).
  destruct (Z.le_gt_cases len (page * per_page)) as [Hout | Hin].
  - rewrite (skipn_all2 users_list (n := Z.to_nat (page * per_page)))
      by (unfold len in Hout; lia).
    rewrite firstn_nil.
    replace (Z.to_nat (Z.min (Z.min (page * per_page + per_page) len) len
                       - Z.min (page * per_page) len)) with 0%nat by lia.
    reflexivity.
  - rewrite (Z.min_l (page * per_page) len) by lia.
    rewrite <- (firstn_min_length (Z.to_nat per_page)).
    rewrite length_skipn. f_equal. unfold len in *. lia.
Qed.

Lemma chunks_concat (n k : nat) (l : list A) :
  List.concat
    (List.map (fun i => firstn n (skipn (i * n) l)) (List.seq 0 k))
  = firstn (k * n) l.
Proof.
  induction k as [ | k IH]; [reflexivity | ].
  rewrite seq_S, List.map_app, concat_app, IH. cbn [List.map List.concat Nat.add].
  rewrite app_nil_r, firstn_then_chunk. f_equal. lia.
Qed.

Lemma pages_cover (total per_page : Z) :
  0 <= total -> 0 < per_page ->
  total <= total_pages total per_page * per_page /\
  (total_pages total per_page - 1) * per_page < Z.max total 1.
Proof.
  intros Ht Hpp. unfold total_pages.
  pose proof (Z.mul_div_le (total + per_page - 1) per_page Hpp) as Hle.
  pose proof (Z.mul_succ_div_gt (total + per_page - 1) per_page Hpp) as Hgt.
  nia.
Qed.

(** X22. The pages of the keyboard split the disabled users: for a
    positive [per_page], the users shown on pages [0 .. total_pages - 1],
    one page after the other, are the users of the dictionary, each once
    and in its order. *)
Theorem pages_partition_the_users (users_list : list A) (per_page : Z) :
  0 < per_page ->
  List.concat
    (List.map (fun i => page_users users_list (Z.of_nat i) per_page)
       (List.seq 0
          (Z.to_nat (total_pages (Z.of_nat (List.length users_list)) per_page))))
  = users_list.
Proof.
  intros Hpp.
  set (pages := total_pages (Z.of_nat (List.length users_list)) per_page).
  rewrite (List.map_ext _
             (fun i => firstn (Z.to_nat per_page)
                         (skipn (i * Z.to_nat per_page) users_list))).
  - rewrite chunks_concat. apply firstn_all2.
    pose proof (pages_cover (Z.of_nat (List.length users_list)) per_page
                  ltac:(lia) Hpp) as [Hcover _].
    fold pages in Hcover. nia.
  - intros i. rewrite page_users_chunk by lia.
    do 2 f_equal. nia.
Qed.

(** X23. A page that exists is never empty and never too long: for a
    positive [per_page] and at least one user, every page from [0] to
    [total_pages - 1] shows between one and [per_page] users, and a page
    from [total_pages] on shows none. *)
Theorem page_sizes (users_list : list A) (page per_page : Z) :
  0 < per_page -> users_list <> [] -> 0 <= page ->
  let pages := total_pages (Z.of_nat (List.length users_list)) per_page in
  let shown := Z.of_nat (List.length (page_users users_list page per_page)) in
  (page < pages -> 1 <= shown <= per_page) /\
  (pages <= page -> shown = 0).
Proof.
  intros Hpp Hne Hpage. cbn zeta.
  rewrite page_users_chunk by lia.
  rewrite length_firstn, length_skipn.
  pose proof (pages_cover (Z.of_nat (List.length users_list)) per_page
                ltac:(lia) Hpp) as [Hcover Hlast].
  assert (Hlen : (0 < List.length users_list)%nat)
    by (destruct users_list; [contradiction | cbn; lia]).
  split; intros H; nia.
Qed.

End Pages.

Section PagesExamples.

Import DisabledUsersKeyboard.

Lemma pages_partition_the_users_witness :
  List.concat
    (List.map (fun i => page_users [1; 2; 3; 4; 5; 6; 7] (Z.of_nat i) 3)
       (List.seq 0 (Z.to_nat (total_pages 7 3))))
  = [1; 2; 3; 4; 5; 6; 7].
Proof.
  apply (pages_partition_the_users [1; 2; 3; 4; 5; 6; 7] 3). lia.
Defined.

Lemma page_sizes_witness :
  1 <= Z.of_nat (List.length (page_users [1; 2; 3; 4; 5; 6; 7] 1 5)) <= 5.
Proof.
  refine (proj1 (page_sizes [1; 2; 3; 4; 5; 6; 7] 1 5 _ _ _) _);
    [lia | discriminate | lia | reflexivity].
Defined.

End PagesExamples.

Section Navigation.

Import DisabledUsersKeyboard.

Lemma nav_of_keyboard (float_sub : Q -> Q -> Q) (current_time : Q)
    (disabled_users : list (string * Q))
    (page per_page : Z) (keyboard : list (list button)) (b : button) :
  create_disabled_users_keyboard float_sub current_time disabled_users page
    per_page
  = Some keyboard ->
  is_nav b ->
  (In b (List.concat keyboard) <->
   In b (nav_buttons page
           (total_pages (Z.of_nat (List.length disabled_users)) per_page))).
Proof.
  unfold create_disabled_users_keyboard.
  destruct (per_page =? 0); [discriminate | ].
  intros H Hb. injection H as <-.
  rewrite !concat_app, !in_app_iff.
  set (nav := nav_buttons page _).
  assert (Hrows : ~ In b (List.concat
            (List.map (fun '(username, disabled_time) =>
                         [UserInfo username
                            (time_label float_sub current_time disabled_time);
                          EnableUser username])
               (page_users disabled_users page per_page)))).
  { rewrite in_concat. intros (row & Hrow & Hin).
    apply in_map_iff in Hrow. destruct Hrow as ([u t] & <- & _).
    destruct Hin as [<- | [<- | []]]; exact Hb. }
  assert (Hall : ~ In b (List.concat
            (if Z.of_nat (List.length disabled_users) >? 0
             then [[EnableAll (Z.of_nat (List.length disabled_users))]]
             else []))).
  { destruct (_ >? 0); cbn; [intros [<- | []]; exact Hb | tauto]. }
  assert (Hend : ~ In b (List.concat [[Refresh]; [BackToUsers]])).
  { cbn. intros [<- | [<- | []]]; exact Hb. }
  assert (Hnav : In b (List.concat (match nav with [] => [] | _ :: _ => [nav] end))
                 <-> In b nav).
  { destruct nav; cbn [List.concat]; [reflexivity | now rewrite app_nil_r]. }
  tauto.
Qed.

(** X24. The navigation buttons only lead to pages that exist.  On a
    page between [0] and [total_pages - 1] of a keyboard with at least
    one user, a Prev button is there exactly when the page is not the
    first and a Next button exactly when it is not the last, and the page
    such a button carries lies again between [0] and [total_pages - 1]
    and shows at least one user. *)
Theorem navigation_stays_on_the_pages
    (float_sub : Q -> Q -> Q)
    (current_time : Q) (disabled_users : list (string * Q))
    (page per_page : Z) (keyboard : list (list button)) :
  0 < per_page -> disabled_users <> [] ->
  let pages := total_pages (Z.of_nat (List.length disabled_users)) per_page in
  0 <= page < pages ->
  create_disabled_users_keyboard float_sub current_time disabled_users page
    per_page
  = Some keyboard ->
  (forall q, In (Prev q) (List.concat keyboard) <-> (q = page - 1 /\ 0 < page)) /\
  (forall q, In (Next q) (List.concat keyboard)
             <-> (q = page + 1 /\ page < pages - 1)) /\
  (forall q, In (Prev q) (List.concat keyboard) \/
             In (Next q) (List.concat keyboard) ->
             0 <= q < pages /\ page_users disabled_users q per_page <> []).
Proof.
  intros Hpp Hne pages Hpage Hkb.
  assert (HP : forall q, In (Prev q) (List.concat keyboard)
                         <-> (q = page - 1 /\ 0 < page)).
  { intros q. rewrite (nav_of_keyboard _ _ _ _ _ _ (Prev q) Hkb I).
    fold pages. unfold nav_buttons. rewrite in_app_iff.
    destruct (page >? 0) eqn:E1; destruct (page <? pages - 1) eqn:E2; cbn [In];
      split; intros H;
      repeat match goal with
             | H : _ \/ _ |- _ => destruct H
             | H : False |- _ => destruct H
             | H : Prev _ = Prev _ |- _ => injection H as <-
             | H : Next _ = Prev _ |- _ => discriminate H
             end; try (split; lia); try lia;
      destruct H as [-> _]; tauto. }
  assert (HN : forall q, In (Next q) (List.concat keyboard)
                         <-> (q = page + 1 /\ page < pages - 1)).
  { intros q. rewrite (nav_of_keyboard _ _ _ _ _ _ (Next q) Hkb I).
    fold pages. unfold nav_buttons. rewrite in_app_iff.
    destruct (page >? 0) eqn:E1; destruct (page <? pages - 1) eqn:E2; cbn [In];
      split; intros H;
      repeat match goal with
             | H : _ \/ _ |- _ => destruct H
             | H : False |- _ => destruct H
             | H : Next _ = Next _ |- _ => injection H as <-
             | H : Prev _ = Next _ |- _ => discriminate H
             end; try (split; lia); try lia;
      destruct H as [-> _]; tauto. }
  split; [exact HP | split; [exact HN | ]].
  intros q Hq.
  assert (Hrange : 0 <= q < pages).
  { destruct Hq as [H | H]; [apply HP in H | apply HN in H]; lia. }
  split; [exact Hrange | ].
  pose proof (page_sizes disabled_users q per_page Hpp Hne (proj1 Hrange))
    as [Hin _].
  cbn zeta in Hin. fold pages in Hin. specialize (Hin (proj2 Hrange)).
  intros Hempty. rewrite Hempty in Hin. cbn in Hin. lia.
Qed.

Lemma navigation_stays_on_the_pages_witness :
  exists keyboard,
    create_disabled_users_keyboard Qminus 100
      [("a", 1%Q); ("b", 2%Q); ("c", 3%Q)] 0 2
    = Some keyboard /\
    In (Next 1) (List.concat keyboard).
Proof.
  eexists. split; [reflexivity | ].
  apply (proj1 (proj2 (navigation_stays_on_the_pages Qminus 100
                         [("a", 1%Q); ("b", 2%Q); ("c", 3%Q)] 0 2 _
                         ltac:(lia) ltac:(discriminate)
                         ltac:(vm_compute; split; congruence) eq_refl))).
  split; [reflexivity | vm_compute; reflexivity].
Defined.

End Navigation.

Section Labels.

Import DisabledUsersKeyboard.

Lemma int_of_float_floor (x : Q) :
  (0 <= x)%Q ->
  (inject_Z (int_of_float x) <= x)%Q /\ (x < inject_Z (int_of_float x + 1))%Q.
Proof.
  intros Hx. unfold int_of_float.
  assert (Hnum : 0 <= Qnum x).
  { unfold Qle in Hx. cbn in Hx. lia. }
  rewrite Z.quot_div_nonneg by lia.
  destruct x as [n d]. cbn [Qnum Qden].
  change (n / Z.pos d) with (Qfloor (n # d)).
  split; [apply Qfloor_le | apply Qlt_floor].
Qed.

(** X25. The label of a user button counts whole minutes below one hour
    and whole hours from then on, on the difference
    [x = current_time - disabled_time] as the subtraction of the two
    floats returns it: for [x >= 0] the label is ["m m ago"] with [m] the
    whole minutes in [x] and [m < 60] when [x < 3600], and ["h h ago"]
    with [h >= 1] the whole hours in [x] when [x >= 3600]. *)
Theorem time_label_minutes_then_hours
    (float_sub : Q -> Q -> Q) (current_time disabled_time : Q) :
  let x := float_sub current_time disabled_time in
  (0 <= x)%Q ->
  ((x < 3600)%Q ->
   exists m, time_label float_sub current_time disabled_time = MinutesAgo m /\
             0 <= m < 60 /\
             (inject_Z (60 * m) <= x)%Q /\ (x < inject_Z (60 * (m + 1)))%Q) /\
  ((3600 <= x)%Q ->
   exists h, time_label float_sub current_time disabled_time = HoursAgo h /\
             1 <= h /\
             (inject_Z (3600 * h) <= x)%Q /\ (x < inject_Z (3600 * (h + 1)))%Q).
Proof.
  cbn zeta.
  set (x := float_sub current_time disabled_time).
  intros Hx.
  destruct (int_of_float_floor x Hx) as [Hlo Hhi].
  unfold time_label. fold x.
  set (e := int_of_float x) in *.
  assert (He : 0 <= e).
  { apply Z.lt_succ_r. rewrite Zlt_Qlt. change (inject_Z 0) with 0%Q.
    replace (Z.succ e) with (e + 1) by lia. lra. }
  pose proof (Z.mul_div_le e 60 ltac:(lia)) as Hm1.
  pose proof (Z.mul_succ_div_gt e 60 ltac:(lia)) as Hm2.
  pose proof (Z.mul_div_le e 3600 ltac:(lia)) as Hh1.
  pose proof (Z.mul_succ_div_gt e 3600 ltac:(lia)) as Hh2.
  assert (Hdiv : e / 60 / 60 = e / 3600) by (rewrite Z.div_div by lia; reflexivity).
  split.
  - intros Hshort.
    assert (He' : e < 3600).
    { rewrite Zlt_Qlt. change (inject_Z 3600) with 3600%Q. lra. }
    exists (e / 60).
    replace (e / 60 >=? 60) with false
      by (symmetry; rewrite Z.geb_leb; apply Z.leb_gt; lia).
    split; [reflexivity | ].
    split; [lia | ].
    split.
    + apply Qle_trans with (inject_Z e); [ | exact Hlo].
      rewrite <- Zle_Qle. lia.
    + apply Qlt_le_trans with (inject_Z (e + 1)); [exact Hhi | ].
      rewrite <- Zle_Qle. lia.
  - intros Hlong.
    assert (He' : 3600 <= e).
    { apply Z.lt_succ_r. rewrite Zlt_Qlt. change (inject_Z 3600) with 3600%Q.
      replace (Z.succ e) with (e + 1) by lia. lra. }
    exists (e / 3600).
    replace (e / 60 >=? 60) with true
      by (symmetry; rewrite Z.geb_leb; apply Z.leb_le; lia).
    rewrite Hdiv. split; [reflexivity | ].
    split; [lia | ].
    split.
    + apply Qle_trans with (inject_Z e); [ | exact Hlo].
      rewrite <- Zle_Qle. lia.
    + apply Qlt_le_trans with (inject_Z (e + 1)); [exact Hhi | ].
      rewrite <- Zle_Qle. lia.
Qed.

(** The difference of 3600.0 and 1e-13 rounds to 3600.0: the label is
    in hours, as the subtraction returned a full hour. *)
Lemma time_label_minutes_then_hours_witness :
  let rounded := fun _ _ : Q => 3600%Q in
  exists h,
    time_label rounded 3600 (1 # 10000000000000) = HoursAgo h /\ 1 <= h.
Proof.
  cbn zeta.
  destruct (proj2 (time_label_minutes_then_hours (fun _ _ : Q => 3600%Q)
                     3600 (1 # 10000000000000)
                     ltac:(unfold Qle; cbn; lia))
              ltac:(unfold Qle; cbn; lia)) as (h & Hl & Hh & _).
  exists h. now split.
Defined.

End Labels.

(** ** Durations that are booleans *)

Section BooleanDurations.

Import PunishmentConfig.

(** C2 (defect of the code). A duration that is the JSON value [true] is
    no integer of the wire format, yet the update is not rejected:
    [isinstance(True, int)] holds and [True < 0] does not, so the
    handler announces the update and replaces the stored steps by the
    step with the boolean duration.  With [false] the same happens, and
    the stored duration then compares equal to [0]. *)
Theorem set_steps_stores_boolean_duration :
  let before :=
    [("punishment",
      JObject [("enabled", JBool true); ("window_hours", JInt 72);
               ("steps", JArray [JObject [("type", JString "warning");
                                          ("duration", JInt 0)]])])] in
  let sent (b : bool) :=
    [JObject [("type", JString "disable"); ("duration", JBool b)]] in
  forall b : bool,
    (forall z : Z, JBool b <> JInt z) /\
    snd (punishment_set_steps (fun _ => Some (JArray (sent b))) true ["steps"]
           before)
    = StepsUpdated (sent b) /\
    stored "steps"
      (fst (punishment_set_steps (fun _ => Some (JArray (sent b))) true
              ["steps"] before))
    = Some (JArray (sent b)) /\
    fst (punishment_set_steps (fun _ => Some (JArray (sent b))) true ["steps"]
           before)
    <> before.
Proof.
  cbn zeta. intros b.
  split; [intros z; discriminate | ].
  destruct b; (split; [reflexivity | split; [reflexivity | discriminate]]).
Qed.

End BooleanDurations.
